(** * TimeSheet_AI front end: the question form and the chat-widget adapters

    A shallow embedding of the four TypeScript sources

      - [src/unnamed/part_000]                       (the form screen, [App])
      - [src/frontend/src/chatScreen/ChatBot.tsx]    (the [/api/chat] adapter)
      - [src/frontend/src/chatScreen/ChatBot_v1.tsx] (two [/timesheetanalyze]
                                                      adapters in one file)

    together with the properties of the written specification that concern
    them.  JavaScript values are a small inductive type, the module-level
    [let] variables of the chat adapters are an explicit store threaded
    through a state-and-exception monad, and the [async] submit handler of
    the form is a resumption: a tree of setter calls and [await] points. *)

From Stdlib Require Import ZArith String Ascii List Bool Lia.
From stdpp Require Import base list strings pretty.

Set Warnings "-register-all".

Open Scope string_scope.
Open Scope list_scope.
Open Scope Z_scope.

(** ** JavaScript values *)

Module Js.

(** The values that reach the code: what [JSON.parse] produces, plus
    [undefined].  Objects are association lists in insertion order, which
    is the order [JSON.stringify] prints them in.  Numbers are the
    integer-valued ones (there is one zero, no NaN and no fraction);
    strings are sequences of code units below 256, so no surrogate
    occurs. *)
Inductive value : Type :=
| VUndefined
| VNull
| VBool (b : bool)
| VNum (n : Z)
| VStr (s : string)
| VArr (elems : list value)
| VObj (fields : list (string * value)).

(** What a [throw] carries: an [Error] instance with its [name] and
    [message], or any other value. *)
Inductive thrown : Type :=
| ErrorObj (name message : string)
| NonError (v : value).

Definition TypeError (message : string) : thrown := ErrorObj "TypeError" message.

Definition nl : string := String (ascii_of_nat 10) EmptyString.

(** [ToBoolean]: the test behind [!x], [x && y] and [x ? y : z]. *)
Definition to_boolean (v : value) : bool :=
  match v with
  | VUndefined | VNull => false
  | VBool b => b
  | VNum n => negb (n =? 0)
  | VStr s => negb (String.eqb s "")
  | VArr _ | VObj _ => true
  end.

Fixpoint join (sep : string) (parts : list string) : string :=
  match parts with
  | [] => ""
  | [p] => p
  | p :: rest => p +:+ sep +:+ join sep rest
  end.

(** [Number::toString] on the integers, in decimal. *)
Definition number_to_string (n : Z) : string := pretty n.

(** [ToString], the coercion of a template-literal substitution.  An array
    joins its elements with commas, printing [null] and [undefined]
    elements as nothing; a plain object prints as [[object Object]]. *)
Fixpoint to_string (v : value) : string :=
  match v with
  | VUndefined => "undefined"
  | VNull => "null"
  | VBool true => "true"
  | VBool false => "false"
  | VNum n => number_to_string n
  | VStr s => s
  | VArr elems =>
      join "," (List.map (fun e => match e with
                                   | VUndefined | VNull => ""
                                   | _ => to_string e
                                   end) elems)
  | VObj _ => "[object Object]"
  end.

(** Own-property lookup in an object literal. *)
Fixpoint lookup_field (k : string) (fields : list (string * value)) : option value :=
  match fields with
  | [] => None
  | (k', v) :: rest => if String.eqb k k' then Some v else lookup_field k rest
  end.

(** [o.k = v]: overwrite in place when the key exists, append otherwise. *)
Fixpoint set_field (k : string) (v : value) (fields : list (string * value))
  : list (string * value) :=
  match fields with
  | [] => [(k, v)]
  | (k', v') :: rest =>
      if String.eqb k k' then (k, v) :: rest else (k', v') :: set_field k v rest
  end.

(** [v.k] for the property names the program reads ([result], [raw],
    [text], [answer], [messages]), none of which a prototype supplies:
    reading from [undefined] or [null] throws a [TypeError], an object
    yields its own field or [undefined], any other value [undefined]. *)
Definition get_prop (v : value) (k : string) : value + thrown :=
  match v with
  | VUndefined =>
      inr (TypeError ("Cannot read properties of undefined (reading '" +:+ k +:+ "')"))
  | VNull =>
      inr (TypeError ("Cannot read properties of null (reading '" +:+ k +:+ "')"))
  | VObj fields =>
      inl (match lookup_field k fields with Some x => x | None => VUndefined end)
  | _ => inl VUndefined
  end.

Definition char_at (s : string) (i : nat) : value :=
  match String.get i s with
  | Some c => VStr (String c EmptyString)
  | None => VUndefined
  end.

(** [v[i]] for an index [i]. *)
Definition get_index (v : value) (i : nat) : value + thrown :=
  match v with
  | VUndefined =>
      inr (TypeError ("Cannot read properties of undefined (reading '"
                        +:+ pretty i +:+ "')"))
  | VNull =>
      inr (TypeError ("Cannot read properties of null (reading '"
                        +:+ pretty i +:+ "')"))
  | VArr elems =>
      inl (match elems !! i with Some x => x | None => VUndefined end)
  | VObj fields =>
      inl (match lookup_field (pretty i) fields with
           | Some x => x
           | None => VUndefined
           end)
  | VStr s => inl (char_at s i)
  | _ => inl VUndefined
  end.

(** [Array.prototype.slice(start)] with the end left out: a negative
    [start] counts from the end and is clamped at the front, a positive
    one is clamped at the length. *)
Definition slice {A : Type} (start : Z) (l : list A) : list A :=
  let len := Z.of_nat (length l) in
  let k := if start <? 0 then Z.max (len + start) 0 else Z.min start len in
  drop (Z.to_nat k) l.

(** *** [JSON.stringify] *)

Definition hex_digit (n : nat) : ascii :=
  match n with
  | 0%nat => "0" | 1%nat => "1" | 2%nat => "2" | 3%nat => "3"
  | 4%nat => "4" | 5%nat => "5" | 6%nat => "6" | 7%nat => "7"
  | 8%nat => "8" | 9%nat => "9" | 10%nat => "a" | 11%nat => "b"
  | 12%nat => "c" | 13%nat => "d" | 14%nat => "e" | _ => "f"
  end%char.

(** The escape of one code unit in [QuoteJSONString]. *)
Definition quote_char (c : ascii) : string :=
  let n := nat_of_ascii c in
  if (n =? 8)%nat then "\b"
  else if (n =? 9)%nat then "\t"
  else if (n =? 10)%nat then "\n"
  else if (n =? 12)%nat then "\f"
  else if (n =? 13)%nat then "\r"
  else if (n =? 34)%nat then String "\" (String (ascii_of_nat 34) EmptyString)
  else if (n =? 92)%nat then "\\"
  else if (n <? 32)%nat then
         "\u00" +:+ String (hex_digit (n / 16)) (String (hex_digit (n mod 16)) EmptyString)
  else String c EmptyString.

Fixpoint quote_body (s : string) : string :=
  match s with
  | EmptyString => ""
  | String c rest => quote_char c +:+ quote_body rest
  end.

Definition dquote : string := String (ascii_of_nat 34) EmptyString.

Definition quote (s : string) : string := dquote +:+ quote_body s +:+ dquote.

Definition is_empty (s : string) : bool := String.eqb s "".

(** [SerializeJSONProperty] with its two helpers for arrays and objects.
    [None] is the [undefined] that [JSON.stringify(undefined)] returns;
    an [undefined] element of an array prints as [null], an [undefined]
    field of an object is left out. *)
Fixpoint serialize (gap indent : string) (v : value) : option string :=
  match v with
  | VUndefined => None
  | VNull => Some "null"
  | VBool true => Some "true"
  | VBool false => Some "false"
  | VNum n => Some (number_to_string n)
  | VStr s => Some (quote s)
  | VArr elems =>
      let stepback := indent in
      let indent := indent +:+ gap in
      let partial :=
        List.map (fun e => match serialize gap indent e with
                           | Some s => s
                           | None => "null"
                           end) elems in
      Some (match partial with
            | [] => "[]"
            | _ =>
                if is_empty gap then "[" +:+ join "," partial +:+ "]"
                else "[" +:+ nl +:+ indent
                       +:+ join ("," +:+ nl +:+ indent) partial
                       +:+ nl +:+ stepback +:+ "]"
            end)
  | VObj fields =>
      let stepback := indent in
      let indent := indent +:+ gap in
      let partial :=
        (fix props (fs : list (string * value)) : list string :=
           match fs with
           | [] => []
           | (k, x) :: rest =>
               match serialize gap indent x with
               | Some s =>
                   (quote k +:+ ":" +:+ (if is_empty gap then "" else " ") +:+ s)
                     :: props rest
               | None => props rest
               end
           end) fields in
      Some (match partial with
            | [] => "{}"
            | _ =>
                if is_empty gap then "{" +:+ join "," partial +:+ "}"
                else "{" +:+ nl +:+ indent
                       +:+ join ("," +:+ nl +:+ indent) partial
                       +:+ nl +:+ stepback +:+ "}"
            end)
  end.

Fixpoint spaces (n : nat) : string :=
  match n with
  | O => ""
  | S m => " " +:+ spaces m
  end.

(** [JSON.stringify(v, null, space)] for a numeric [space], of which at
    most ten count; [JSON.stringify(v)] is [JSON_stringify v 0]. *)
Definition JSON_stringify (v : value) (space : nat) : option string :=
  serialize (spaces (Nat.min 10 space)) "" v.

End Js.

Import Js.


(** ** The chat-widget adapters *)

(** The three adapter components declare the same module-level variables
    and hand the widget a [requestInterceptor] and a [responseInterceptor].
    An interceptor is a computation over those variables that returns or
    throws. *)
Module Chat.

(** The module-level [let] variables.  [newRecord] only ever holds a plain
    object, kept as its list of fields.  The objects pushed onto the two
    arrays are fresh literals that nothing mutates afterwards, so an array
    is the list of its elements' values. *)
Record store : Type := mkStore {
  currentChatDetail : list value;
  chatHistor_LLM : list value;
  newRecord : list (string * value)
}.

(** The values of the variables when the module has just been loaded. *)
Definition fresh : store :=
  {| currentChatDetail := []; chatHistor_LLM := []; newRecord := [] |}.

(** [request: { body: any }] *)
Record Request : Type := mkRequest { body : value }.

Definition M (A : Type) : Type := store -> (A + thrown) * store.

Definition ret {A : Type} (a : A) : M A := fun st => (inl a, st).

Definition bind {A B : Type} (m : M A) (k : A -> M B) : M B :=
  fun st =>
    match m st with
    | (inl a, st') => k a st'
    | (inr e, st') => (inr e, st')
    end.

(** An expression that reads no variable: its value, or what it throws. *)
Definition eval {A : Type} (r : A + thrown) : M A := fun st => (r, st).

Definition read {A : Type} (proj : store -> A) : M A := fun st => (inl (proj st), st).

Definition update (f : store -> store) : M unit := fun st => (inl tt, f st).

Definition push_currentChatDetail (x : value) : M unit :=
  update (fun st => {| currentChatDetail := currentChatDetail st ++ [x];
                       chatHistor_LLM := chatHistor_LLM st;
                       newRecord := newRecord st |}).

Definition push_chatHistor_LLM (x : value) : M unit :=
  update (fun st => {| currentChatDetail := currentChatDetail st;
                       chatHistor_LLM := chatHistor_LLM st ++ [x];
                       newRecord := newRecord st |}).

(** [newRecord = {}] *)
Definition reset_newRecord : M unit :=
  update (fun st => {| currentChatDetail := currentChatDetail st;
                       chatHistor_LLM := chatHistor_LLM st;
                       newRecord := [] |}).

(** [newRecord.k = x] *)
Definition assign_newRecord (k : string) (x : value) : M unit :=
  update (fun st => {| currentChatDetail := currentChatDetail st;
                       chatHistor_LLM := chatHistor_LLM st;
                       newRecord := set_field k x (newRecord st) |}).

Declare Scope chat_scope.
Delimit Scope chat_scope with chat.
Notation "x <- m ;; k" := (bind m (fun x => k))
  (at level 100, m at next level, right associativity) : chat_scope.
Notation "m ;; k" := (bind m (fun _ => k))
  (at level 100, right associativity) : chat_scope.

Definition and_then (r : value + thrown) (k : value -> value + thrown) : value + thrown :=
  match r with
  | inl v => k v
  | inr e => inr e
  end.

(** [request.body["messages"][0].text] *)
Definition message_text (request : Request) : value + thrown :=
  and_then (and_then (get_prop (body request) "messages")
                     (fun messages => get_index messages 0))
           (fun first => get_prop first "text").

(** [const lastFiveMessages = chatHistor_LLM.slice(-10)] *)
Definition lastFiveMessages (history : list value) : list value := slice (-10) history.

(** What the two properties of an adapter are to the widget; [now] is the
    reading of [new Date().toString()] at the call. *)
Record adapter : Type := mkAdapter {
  on_request : Request -> M Request;
  on_response : value -> string -> M value
}.

(** One interceptor invocation by the widget. *)
Inductive call : Type :=
| Outgoing (request : Request)
| Incoming (response : value) (now : string).

(** The store after a call; a throw leaves it as it was at the throw. *)
Definition after (a : adapter) (c : call) (st : store) : store :=
  match c with
  | Outgoing request => snd (on_request a request st)
  | Incoming response now => snd (on_response a response now st)
  end.

(** The store after a page session, the calls in the order they happen. *)
Definition session (a : adapter) (calls : list call) (st : store) : store :=
  fold_left (fun s c => after a c s) calls st.

End Chat.

Import Chat.
Open Scope chat_scope.

(** *** [ChatBot.tsx]: the [/api/chat] adapter, which sends [content] and
    [history] *)
Module ChatBot.

Definition requestInterceptor (request : Request) : M Request :=
  reset_newRecord ;;
  questions <- eval (message_text request) ;;
  assign_newRecord "questions" questions ;;
  html <- eval (message_text request) ;;
  let currentMessages := VObj [("role", VStr "user"); ("html", html)] in
  push_currentChatDetail currentMessages ;;
  content <- eval (message_text request) ;;
  let currentMessages_LLM := VObj [("role", VStr "user"); ("content", content)] in
  push_chatHistor_LLM currentMessages_LLM ;;
  history <- read chatHistor_LLM ;;
  let lastFive := lastFiveMessages history in
  content' <- eval (message_text request) ;;
  ret {| body := VObj [("content", content'); ("history", VArr lastFive)] |}.

Definition responseInterceptor (response : value) (now : string) : M value :=
  text <- eval (get_prop response "text") ;;
  let formattedResponse := VObj [("html", text)] in
  html <- eval (get_prop response "text") ;;
  let currentMessages := VObj [("role", VStr "ai"); ("html", html)] in
  push_currentChatDetail currentMessages ;;
  content <- eval (get_prop response "answer") ;;
  let currentMessages_LLM := VObj [("role", VStr "assistant"); ("content", content)] in
  push_chatHistor_LLM currentMessages_LLM ;;
  answer <- eval (get_prop response "answer") ;;
  assign_newRecord "Answer" answer ;;
  assign_newRecord "dateAndTime" (VStr now) ;;
  ret formattedResponse.

Definition widget : adapter :=
  {| on_request := requestInterceptor; on_response := responseInterceptor |}.

End ChatBot.

(** *** [ChatBot_v1.tsx], first component: sends [question], renders through
    [formatResponse] *)
Module ChatBot_v1.

Definition no_result : string := "No result received from the server.".

(** The template literal opens with a line break and the indentation of
    its second line, and closes with a line break and the indentation of
    the back quote. *)
Definition formatResponse (response : value) : string + thrown :=
  match get_prop response "result" with
  | inr e => inr e
  | inl result =>
      if negb (to_boolean result) then inl no_result
      else
        match get_prop result "raw" with
        | inr e => inr e
        | inl reportSections =>
            inl (nl +:+ spaces 12 +:+ "<div>" +:+ to_string reportSections
                    +:+ "</div>" +:+ nl +:+ spaces 8)
        end
  end.

Definition requestInterceptor (request : Request) : M Request :=
  reset_newRecord ;;
  questions <- eval (message_text request) ;;
  assign_newRecord "questions" questions ;;
  html <- eval (message_text request) ;;
  let currentMessages := VObj [("role", VStr "user"); ("html", html)] in
  push_currentChatDetail currentMessages ;;
  question <- eval (message_text request) ;;
  ret {| body := VObj [("question", question)] |}.

(** [console.log] writes to no variable of the module and is left out. *)
Definition responseInterceptor (response : value) (now : string) : M value :=
  formattedResponse <- eval (formatResponse response) ;;
  let currentMessages := VObj [("role", VStr "ai"); ("html", VStr formattedResponse)] in
  push_currentChatDetail currentMessages ;;
  answer <- eval (get_prop response "answer") ;;
  assign_newRecord "Answer" answer ;;
  assign_newRecord "dateAndTime" (VStr now) ;;
  ret (VObj [("html", VStr formattedResponse)]).

Definition widget : adapter :=
  {| on_request := requestInterceptor; on_response := responseInterceptor |}.

End ChatBot_v1.

(** *** [ChatBot_v1.tsx], second component: keeps the role/content history
    and computes the window, but sends [question] alone *)
Module ChatBot_v1_history.

Definition requestInterceptor (request : Request) : M Request :=
  reset_newRecord ;;
  questions <- eval (message_text request) ;;
  assign_newRecord "questions" questions ;;
  html <- eval (message_text request) ;;
  let currentMessages := VObj [("role", VStr "user"); ("html", html)] in
  push_currentChatDetail currentMessages ;;
  content <- eval (message_text request) ;;
  let currentMessages_LLM := VObj [("role", VStr "user"); ("content", content)] in
  push_chatHistor_LLM currentMessages_LLM ;;
  history <- read chatHistor_LLM ;;
  let lastFive := lastFiveMessages history in
  question <- eval (message_text request) ;;
  ret {| body := VObj [("question", question)] |}.

Definition responseInterceptor (response : value) (now : string) : M value :=
  text <- eval (get_prop response "text") ;;
  let formattedResponse := VObj [("html", text)] in
  html <- eval (get_prop response "text") ;;
  let currentMessages := VObj [("role", VStr "ai"); ("html", html)] in
  push_currentChatDetail currentMessages ;;
  content <- eval (get_prop response "answer") ;;
  let currentMessages_LLM := VObj [("role", VStr "assistant"); ("content", content)] in
  push_chatHistor_LLM currentMessages_LLM ;;
  answer <- eval (get_prop response "answer") ;;
  assign_newRecord "Answer" answer ;;
  assign_newRecord "dateAndTime" (VStr now) ;;
  ret formattedResponse.

Definition widget : adapter :=
  {| on_request := requestInterceptor; on_response := responseInterceptor |}.

End ChatBot_v1_history.

Close Scope chat_scope.

(** ** The form screen *)

Module Form.

(** The four [useState] cells of [App].  [analysisResult] holds whatever
    [response.json()] produced ([null] at first): its declared type is
    never checked. *)
Record State : Type := mkState {
  question : string;
  analysisResult : value;
  loading : bool;
  error : option string
}.

Definition initial : State :=
  {| question := ""; analysisResult := VNull; loading := false; error := None |}.

(** What the handler reads of a [fetch] response.  [ok] is the getter of
    the Fetch standard: the status is in the range 200 to 299. *)
Record Response : Type := mkResponse {
  status : Z;
  statusText : string
}.

Definition ok (response : Response) : bool :=
  (200 <=? status response) && (status response <=? 299).

(** The second argument of [fetch]. *)
Record RequestInit : Type := mkRequestInit {
  method : string;
  headers : list (string * string);
  body : option string
}.

(** The promises the handler awaits, indexed by what they resolve to. *)
Inductive promise : Type -> Type :=
| fetch (url : string) (init : RequestInit) : promise Response
| json (response : Response) : promise value.

(** The calls the handler makes that change the page. *)
Inductive effect : Type :=
| preventDefault
| setQuestion (text : string)
| setAnalysisResult (data : value)
| setLoading (flag : bool)
| setError (message : option string).

(** An [async] function body: it returns, throws, makes a call and goes
    on, or awaits a promise and goes on with how the promise settled. *)
Inductive task (A : Type) : Type :=
| Return (a : A)
| Throw (e : thrown)
| Do (eff : effect) (k : task A)
| Await {T : Type} (p : promise T) (k : T + thrown -> task A).

Arguments Return {A} a.
Arguments Throw {A} e.
Arguments Do {A} eff k.
Arguments Await {A T} p k.

Fixpoint bind {A B : Type} (t : task A) (k : A -> task B) : task B :=
  match t with
  | Return a => k a
  | Throw e => Throw e
  | Do eff t' => Do eff (bind t' k)
  | Await p r => Await p (fun x => bind (r x) k)
  end.

(** [try { t } catch (err) { h err }] *)
Fixpoint try_catch {A : Type} (t : task A) (h : thrown -> task A) : task A :=
  match t with
  | Return a => Return a
  | Throw e => h e
  | Do eff t' => Do eff (try_catch t' h)
  | Await p r => Await p (fun x => try_catch (r x) h)
  end.

(** [try { t } finally { f }]: [f] runs however [t] ends, and the way [t]
    ended stands unless [f] itself throws. *)
Fixpoint finally {A : Type} (t : task A) (f : task unit) : task A :=
  match t with
  | Return a => bind f (fun _ => Return a)
  | Throw e => bind f (fun _ => Throw e)
  | Do eff t' => Do eff (finally t' f)
  | Await p r => Await p (fun x => finally (r x) f)
  end.

Definition call (eff : effect) : task unit := Do eff (Return tt).

(** [await p]: the value of a fulfilled promise, the reason of a rejected
    one thrown. *)
Definition await {T : Type} (p : promise T) : task T :=
  Await p (fun settled => match settled with
                          | inl v => Return v
                          | inr e => Throw e
                          end).

Declare Scope task_scope.
Delimit Scope task_scope with task.
Notation "x <- t ;; k" := (bind t (fun x => k))
  (at level 100, t at next level, right associativity) : task_scope.
Notation "t ;; k" := (bind t (fun _ => k))
  (at level 100, right associativity) : task_scope.
Open Scope task_scope.

Definition endpoint : string := "http://localhost:8000/timesheetanalyze".

(** [err instanceof Error ? err.message : 'Something went wrong'] *)
Definition error_text (err : thrown) : string :=
  match err with
  | ErrorObj _ message => message
  | NonError _ => "Something went wrong"
  end.

(** The closure over [question] that one render of [App] creates. *)
Definition handleSubmit (question : string) : task unit :=
  call preventDefault ;;
  call (setLoading true) ;;
  call (setError None) ;;
  finally
    (try_catch
       (response <- await (fetch endpoint
                             {| method := "POST";
                                headers := [("Content-Type", "application/json")];
                                body := JSON_stringify (VObj [("question", VStr question)]) 0 |}) ;;
        (if negb (ok response)
         then Throw (ErrorObj "Error"
                       ("Error: " +:+ number_to_string (status response)
                          +:+ " " +:+ statusText response))
         else Return tt) ;;
        data <- await (json response) ;;
        call (setAnalysisResult data))
       (fun err => call (setError (Some (error_text err)))))
    (call (setLoading false)).

(** *** What [App] returns *)

(** The braces after the form: nothing, a bare text (the falsy operand of
    [&&] that React prints, such as 0), or the block with the heading and
    the [pre]. *)
Inductive result_view : Type :=
| NoResult
| BareText (text : string)
| ResultBlock (heading : string) (pre : option string).

Record view : Type := mkView {
  input_value : string;
  input_required : bool;
  button_disabled : bool;
  button_label : string;
  error_paragraph : option string;
  result_section : result_view
}.

Definition App (s : State) : view :=
  {| input_value := question s;
     input_required := true;
     button_disabled := loading s;
     button_label := if loading s then "Analyzing..." else "Analyze";
     error_paragraph :=
       match error s with
       | Some message => if is_empty message then None else Some message
       | None => None
       end;
     result_section :=
       if to_boolean (analysisResult s) then
         match get_prop (analysisResult s) "result" with
         | inl result => ResultBlock "Analysis Result" (JSON_stringify result 2)
         | inr _ => NoResult
         end
       else
         match analysisResult s with
         | VNum n => BareText (number_to_string n)
         | _ => NoResult
         end |}.

(** *** Running a handler *)

Definition apply_effect (eff : effect) (s : State) : State :=
  match eff with
  | preventDefault => s
  | setQuestion text =>
      {| question := text; analysisResult := analysisResult s;
         loading := loading s; error := error s |}
  | setAnalysisResult data =>
      {| question := question s; analysisResult := data;
         loading := loading s; error := error s |}
  | setLoading flag =>
      {| question := question s; analysisResult := analysisResult s;
         loading := flag; error := error s |}
  | setError message =>
      {| question := question s; analysisResult := analysisResult s;
         loading := loading s; error := message |}
  end.

(** How the outside world settles each promise. *)
Definition network : Type := forall T : Type, promise T -> T + thrown.

(** What a run leaves behind to be observed. *)
Inductive event : Type :=
| Called (eff : effect)
| Awaited {T : Type} (p : promise T).

(** A whole run against a network: the events in order and the outcome. *)
Fixpoint run {A : Type} (net : network) (t : task A) : list event * (A + thrown) :=
  match t with
  | Return a => ([], inl a)
  | Throw e => ([], inr e)
  | Do eff k => let '(tr, r) := run net k in (Called eff :: tr, r)
  | Await p k => let '(tr, r) := run net (k (net _ p)) in (Awaited p :: tr, r)
  end.

Definition observe (s : State) (e : event) : State :=
  match e with
  | Called eff => apply_effect eff s
  | Awaited _ => s
  end.

(** The state once every call of a trace has been made. *)
Definition state_after (tr : list event) (s : State) : State := fold_left observe tr s.

(** The HTTP requests of a trace. *)
Fixpoint requests (tr : list event) : list (string * RequestInit) :=
  match tr with
  | [] => []
  | Awaited p :: rest =>
      match p with
      | fetch url init => (url, init) :: requests rest
      | json _ => requests rest
      end
  | Called _ :: rest => requests rest
  end.

(** *** The page as a transition system *)

(** The state cells and the handlers that wait at an [await]. *)
Record page : Type := mkPage {
  ui : State;
  in_flight : list (task unit)
}.

Definition loaded : page := {| ui := initial; in_flight := [] |}.

(** Run a handler up to its next [await], or to its end. *)
Fixpoint advance (t : task unit) (s : State) : State * option (task unit) :=
  match t with
  | Do eff k => advance k (apply_effect eff s)
  | Await p k => (s, Some (Await p k))
  | Return _ | Throw _ => (s, None)
  end.

(** The user edits the input; the user submits the form, which the browser
    allows only through an enabled submit button and with the [required]
    input filled; a promise a handler waits for settles. *)
Inductive step : page -> page -> Prop :=
| step_change (pg : page) (text : string) :
    step pg {| ui := apply_effect (setQuestion text) (ui pg);
               in_flight := in_flight pg |}
| step_submit (pg : page) (s' : State) (waiting : option (task unit)) :
    button_disabled (App (ui pg)) = false ->
    input_value (App (ui pg)) <> "" ->
    advance (handleSubmit (question (ui pg))) (ui pg) = (s', waiting) ->
    step pg {| ui := s'; in_flight := in_flight pg ++ option_list waiting |}
| step_settle (pg : page) (T : Type) (p : promise T) (k : T + thrown -> task unit)
              (settled : T + thrown) (before later : list (task unit))
              (s' : State) (waiting : option (task unit)) :
    in_flight pg = before ++ Await p k :: later ->
    advance (k settled) (ui pg) = (s', waiting) ->
    step pg {| ui := s'; in_flight := before ++ option_list waiting ++ later |}.

Inductive reachable : page -> Prop :=
| reachable_loaded : reachable loaded
| reachable_step (pg pg' : page) : reachable pg -> step pg pg' -> reachable pg'.

End Form.

(** ** Vocabulary of the properties *)

(** The entries that the request interceptors push for a message [text]:
    onto the transcript, and onto the role/content history. *)
Definition user_turn (text : value) : value :=
  VObj [("role", VStr "user"); ("html", text)].

Definition user_entry (text : value) : value :=
  VObj [("role", VStr "user"); ("content", text)].

(** The request the widget hands over for a typed message. *)
Definition typed (text : string) : Request :=
  {| Chat.body := VObj [("messages", VArr [VObj [("role", VStr "user");
                                                 ("text", VStr text)]])] |}.

(** The [history] sent with [request] is cut from the turns exchanged before
    it, the role/content history as it stood when the interceptor was
    called. *)
Definition sends_prior_turns (st : store) (request : Request) : Prop :=
  exists (request' : Request) (st' : store) (window : list value),
    ChatBot.requestInterceptor request st = (inl request', st')
    /\ get_prop (Chat.body request') "history" = inl (VArr window)
    /\ window `suffix_of` chatHistor_LLM st.

(** Every entry of [before] is in [later] at the same index, and [later]
    has at most gained entries at its end. *)
Definition kept_in (before later : list value) : Prop :=
  before `prefix_of` later
  /\ forall (i : nat) (x : value), before !! i = Some x -> later !! i = Some x.

(** Both arrays of the adapter only grow at their end over a session. *)
Definition append_only (a : adapter) : Prop :=
  forall (calls : list Chat.call) (st : store),
    kept_in (currentChatDetail st) (currentChatDetail (session a calls st))
    /\ kept_in (chatHistor_LLM st) (chatHistor_LLM (session a calls st)).

(** [needle] occurs in [text]. *)
Definition contains (needle text : string) : Prop :=
  exists before behind : string, text = before +:+ needle +:+ behind.

(** The second argument of the one [fetch] call of [handleSubmit]. *)
Definition posted (question : string) : Form.RequestInit :=
  {| Form.method := "POST";
     Form.headers := [("Content-Type", "application/json")];
     Form.body := JSON_stringify (VObj [("question", VStr question)]) 0 |}.

(** A network on which [fetch] settles as [answer] and [response.json()] as
    [parsed]. *)
Definition answering (answer : Form.Response + thrown) (parsed : value + thrown)
  : Form.network :=
  fun (T : Type) (p : Form.promise T) =>
    match p in Form.promise T' return T' + thrown with
    | Form.fetch _ _ => answer
    | Form.json _ => parsed
    end.

(** [tracks flag t]: started with the loading flag at [flag], the handler
    [t] has the flag up at each of its [await]s and down when it ends. *)
Fixpoint tracks (flag : bool) (t : Form.task unit) : Prop :=
  match t with
  | Form.Return _ | Form.Throw _ => flag = false
  | Form.Do eff k =>
      tracks (match eff with Form.setLoading b => b | _ => flag end) k
  | Form.Await _ k => flag = true /\ forall settled, tracks true (k settled)
  end.

(** [null] and [undefined], the two values a property cannot be read from. *)
Definition nullish (v : value) : bool :=
  match v with
  | VUndefined | VNull => true
  | _ => false
  end.

(** A request interceptor call either returns and has pushed one entry onto
    the transcript, or throws and has pushed nothing onto either array; the
    same for a response interceptor call. *)
Definition all_or_nothing (a : adapter) : Prop :=
  (forall (request : Request) (st : store),
      match on_request a request st with
      | (inl _, st') =>
          exists x : value, currentChatDetail st' = currentChatDetail st ++ [x]
      | (inr _, st') =>
          currentChatDetail st' = currentChatDetail st
          /\ chatHistor_LLM st' = chatHistor_LLM st
      end)
  /\ (forall (response : value) (now : string) (st : store),
         match on_response a response now st with
         | (inl _, st') =>
             exists x : value, currentChatDetail st' = currentChatDetail st ++ [x]
         | (inr _, st') =>
             currentChatDetail st' = currentChatDetail st
             /\ chatHistor_LLM st' = chatHistor_LLM st
         end).

(** The [role] of an entry is one of the listed strings. *)
Definition role_in (roles : list string) (entry : value) : Prop :=
  exists r : string, get_prop entry "role" = inl (VStr r) /\ List.In r roles.

(** The shape of the two arrays: transcript entries are user or ai turns,
    history entries are user or assistant entries. *)
Definition well_formed (st : store) : Prop :=
  Forall (role_in ["user"; "ai"]) (currentChatDetail st)
  /\ Forall (role_in ["user"; "assistant"]) (chatHistor_LLM st).

(** The responses of a trace whose [json()] was awaited. *)
Fixpoint parses (tr : list Form.event) : list Form.Response :=
  match tr with
  | [] => []
  | Form.Awaited p :: rest =>
      match p with
      | Form.fetch _ _ => parses rest
      | Form.json response => response :: parses rest
      end
  | Form.Called _ :: rest => parses rest
  end.

(** [quiet shown t]: started with an error message set or not, as [shown]
    says, the handler [t] has no error message set at any of its
    [await]s. *)
Fixpoint quiet (shown : bool) (t : Form.task unit) : Prop :=
  match t with
  | Form.Return _ | Form.Throw _ => True
  | Form.Do eff k =>
      quiet (match eff with
             | Form.setError (Some _) => true
             | Form.setError None => false
             | _ => shown
             end) k
  | Form.Await _ k => shown = false /\ forall settled, quiet false (k settled)
  end.

(** The page once [question] has been typed into the fresh form and
    submitted. *)
Definition submitted (question : string) : Form.page :=
  let s := Form.apply_effect (Form.setQuestion question) Form.initial in
  {| Form.ui := fst (Form.advance (Form.handleSubmit question) s);
     Form.in_flight := option_list (snd (Form.advance (Form.handleSubmit question) s)) |}.

(** The value of a hexadecimal digit. *)
Definition hex_value (c : ascii) : nat :=
  let n := nat_of_ascii c in
  if (n <? 58)%nat then (n - 48)%nat else (n - 87)%nat.

(** Reads one code unit off the front of the inside of a JSON string: an
    escape, or a plain character; a bare double quote ends the string and
    is not read. *)
Definition read_char (s : string) : option (ascii * string) :=
  match s with
  | EmptyString => None
  | String c rest =>
      if (nat_of_ascii c =? 92)%nat then
        match rest with
        | EmptyString => None
        | String x rest' =>
            let n := nat_of_ascii x in
            if (n =? 98)%nat then Some (ascii_of_nat 8, rest')
            else if (n =? 116)%nat then Some (ascii_of_nat 9, rest')
            else if (n =? 110)%nat then Some (ascii_of_nat 10, rest')
            else if (n =? 102)%nat then Some (ascii_of_nat 12, rest')
            else if (n =? 114)%nat then Some (ascii_of_nat 13, rest')
            else if (n =? 34)%nat then Some (ascii_of_nat 34, rest')
            else if (n =? 92)%nat then Some (ascii_of_nat 92, rest')
            else if (n =? 117)%nat then
              match rest' with
              | String _ (String _ (String high (String low rest''))) =>
                  Some (ascii_of_nat (16 * hex_value high + hex_value low), rest'')
              | _ => None
              end
            else None
        end
      else if (nat_of_ascii c =? 34)%nat then None
      else Some (c, rest)
  end.

(** * Properties *)

(** ** The history window *)

Section HistoryWindow.

Context {A : Type}.
Implicit Types l : list A.

(** [slice(-n)] for a positive [n] drops all but the last [n] entries. *)
Lemma slice_negative (n : nat) l :
  (0 < n)%nat -> slice (- Z.of_nat n) l = drop (length l - n) l.
Proof.
  intros Hn. unfold slice.
  destruct (Z.ltb_spec (- Z.of_nat n) 0) as [_ | Hge]; [| lia].
  f_equal. lia.
Qed.

Lemma slice_negative_length (n : nat) l :
  (0 < n)%nat -> length (slice (- Z.of_nat n) l) = Nat.min n (length l).
Proof. intros Hn. rewrite slice_negative, length_drop by done. lia. Qed.

Lemma slice_negative_suffix (n : nat) l :
  (0 < n)%nat -> slice (- Z.of_nat n) l `suffix_of` l.
Proof. intros Hn. rewrite slice_negative by done. apply suffix_drop. Qed.

(** The window of a list that has just been pushed onto: the pushed entry
    behind the last [n - 1] of the entries before it. *)
Lemma slice_negative_snoc (n : nat) l (x : A) :
  slice (- Z.of_nat (S n)) (l ++ [x]) = drop (length l - n) l ++ [x].
Proof.
  rewrite slice_negative by lia. rewrite length_app. simpl.
  replace (length l + 1 - S n)%nat with (length l - n)%nat by lia.
  apply drop_app_le. lia.
Qed.

End HistoryWindow.

Lemma lastFiveMessages_drop (history : list value) :
  lastFiveMessages history = drop (length history - 10) history.
Proof. apply (slice_negative 10). lia. Qed.

Lemma lastFiveMessages_snoc (prior : list value) (current : value) :
  lastFiveMessages (prior ++ [current]) = drop (length prior - 9) prior ++ [current].
Proof. apply (slice_negative_snoc 9). Qed.

(** ** What the interceptors compute *)

(** Unfolds one interceptor call into the pair of its outcome and store. *)
Ltac chat_unfold :=
  unfold ChatBot.requestInterceptor, ChatBot.responseInterceptor,
    ChatBot_v1.requestInterceptor, ChatBot_v1.responseInterceptor,
    ChatBot_v1_history.requestInterceptor, ChatBot_v1_history.responseInterceptor,
    Chat.bind, Chat.eval, Chat.read, Chat.update, Chat.ret,
    push_currentChatDetail, push_chatHistor_LLM, reset_newRecord, assign_newRecord.

Lemma ChatBot_request_ok (request : Request) (text : value) (st : store) :
  message_text request = inl text ->
  ChatBot.requestInterceptor request st =
    (inl {| Chat.body :=
              VObj [("content", text);
                    ("history",
                     VArr (lastFiveMessages (chatHistor_LLM st ++ [user_entry text])))] |},
     {| currentChatDetail := currentChatDetail st ++ [user_turn text];
        chatHistor_LLM := chatHistor_LLM st ++ [user_entry text];
        newRecord := [("questions", text)] |}).
Proof. intros H. chat_unfold. rewrite H. reflexivity. Qed.

Lemma ChatBot_request_throws (request : Request) (e : thrown) (st : store) :
  message_text request = inr e ->
  ChatBot.requestInterceptor request st =
    (inr e, {| currentChatDetail := currentChatDetail st;
               chatHistor_LLM := chatHistor_LLM st;
               newRecord := [] |}).
Proof. intros H. chat_unfold. rewrite H. reflexivity. Qed.

Lemma ChatBot_v1_request_ok (request : Request) (text : value) (st : store) :
  message_text request = inl text ->
  ChatBot_v1.requestInterceptor request st =
    (inl {| Chat.body := VObj [("question", text)] |},
     {| currentChatDetail := currentChatDetail st ++ [user_turn text];
        chatHistor_LLM := chatHistor_LLM st;
        newRecord := [("questions", text)] |}).
Proof. intros H. chat_unfold. rewrite H. reflexivity. Qed.

Lemma ChatBot_v1_history_request_ok (request : Request) (text : value) (st : store) :
  message_text request = inl text ->
  ChatBot_v1_history.requestInterceptor request st =
    (inl {| Chat.body := VObj [("question", text)] |},
     {| currentChatDetail := currentChatDetail st ++ [user_turn text];
        chatHistor_LLM := chatHistor_LLM st ++ [user_entry text];
        newRecord := [("questions", text)] |}).
Proof. intros H. chat_unfold. rewrite H. reflexivity. Qed.

(** C1. The window that the request interceptor computes from the
    accumulated role/content history, [chatHistor_LLM.slice(-10)], has at
    most ten entries (ten, or all of a shorter history); it is a suffix of
    the history, so its entries are the last ones in their original order:
    entry [i] of the window is entry [length history - length window + i]
    of the history.  It is what [ChatBot.tsx] sends as [history], computed
    from the history as it stands when the interceptor returns. *)
Theorem history_window_bounded_suffix :
  (forall history : list value,
      (length (lastFiveMessages history) <= 10)%nat
      /\ length (lastFiveMessages history) = Nat.min 10 (length history)
      /\ lastFiveMessages history `suffix_of` history
      /\ (forall (i : nat) (x : value),
             lastFiveMessages history !! i = Some x <->
             (i < length (lastFiveMessages history))%nat
             /\ history !! (length history - length (lastFiveMessages history) + i)%nat
                = Some x))
  /\ (forall (request : Request) (st : store),
         match ChatBot.requestInterceptor request st with
         | (inl request', st') =>
             get_prop (Chat.body request') "history"
             = inl (VArr (lastFiveMessages (chatHistor_LLM st')))
         | (inr e, _) => message_text request = inr e
         end).
Proof.
  split.
  - intros history.
    assert (Hlen : length (lastFiveMessages history) = Nat.min 10 (length history))
      by apply (slice_negative_length 10 history ltac:(lia)).
    split; [lia |]. split; [exact Hlen |].
    split; [apply (slice_negative_suffix 10); lia |].
    intros i x. rewrite Hlen. rewrite lastFiveMessages_drop at 1.
    rewrite lookup_drop.
    replace (length history - Nat.min 10 (length history) + i)%nat
      with (length history - 10 + i)%nat by lia.
    split.
    + intros Hx. split; [| exact Hx].
      apply lookup_lt_Some in Hx. lia.
    + intros [_ Hx]. exact Hx.
  - intros request st.
    destruct (message_text request) as [text | e] eqn:Htext.
    + rewrite (ChatBot_request_ok request text st Htext). reflexivity.
    + rewrite (ChatBot_request_throws request e st Htext). reflexivity.
Qed.

(** C7, as the specification words it: the attached history would hold
    prior turns only.  It fails on the first message of a session, when no
    turn has been exchanged yet and the history sent is the message
    itself. *)
Lemma first_message_history_not_prior :
  message_text (typed "hi") = inl (VStr "hi")
  /\ ChatBot.requestInterceptor (typed "hi") fresh
     = (inl {| Chat.body := VObj [("content", VStr "hi");
                                  ("history", VArr [user_entry (VStr "hi")])] |},
        {| currentChatDetail := [user_turn (VStr "hi")];
           chatHistor_LLM := [user_entry (VStr "hi")];
           newRecord := [("questions", VStr "hi")] |})
  /\ ~ sends_prior_turns fresh (typed "hi").
Proof.
  split; [reflexivity |]. split; [reflexivity |].
  intros (request' & st' & window & Hrun & Hget & Hsuffix).
  injection Hrun as <- <-. simpl in Hget. injection Hget as <-.
  destruct Hsuffix as [k Hk]. simpl in Hk. destruct k; discriminate.
Qed.

(** C7, amended.  In [ChatBot.tsx] the message being sent is pushed onto the
    role/content history before the window is cut.  The [history] attached
    to a message is therefore the last ten entries of the history with that
    message included: it ends with the message itself, as a user entry, and
    before it come the last nine (or all, if fewer) of the turns exchanged
    earlier, in order. *)
Theorem history_window_ends_with_current
    (st : store) (request : Request) (text : value) :
  message_text request = inl text ->
  exists (request' : Request) (st' : store) (earlier : list value),
    ChatBot.requestInterceptor request st = (inl request', st')
    /\ get_prop (Chat.body request') "history"
       = inl (VArr (earlier ++ [user_entry text]))
    /\ earlier ++ [user_entry text]
       = lastFiveMessages (chatHistor_LLM st ++ [user_entry text])
    /\ earlier `suffix_of` chatHistor_LLM st
    /\ length earlier = Nat.min 9 (length (chatHistor_LLM st))
    /\ (length (earlier ++ [user_entry text]) <= 10)%nat.
Proof.
  intros Htext.
  exists {| Chat.body :=
              VObj [("content", text);
                    ("history",
                     VArr (lastFiveMessages (chatHistor_LLM st ++ [user_entry text])))] |}.
  eexists. exists (drop (length (chatHistor_LLM st) - 9) (chatHistor_LLM st)).
  split; [apply ChatBot_request_ok, Htext |].
  rewrite lastFiveMessages_snoc.
  split; [reflexivity |]. split; [reflexivity |].
  split; [apply suffix_drop |].
  split.
  - rewrite length_drop. lia.
  - rewrite length_app, length_drop. simpl. lia.
Qed.

Lemma history_window_ends_with_current_witness :
  exists (request' : Request) (st' : store) (earlier : list value),
    ChatBot.requestInterceptor (typed "hi") fresh = (inl request', st')
    /\ get_prop (Chat.body request') "history"
       = inl (VArr (earlier ++ [user_entry (VStr "hi")]))
    /\ earlier ++ [user_entry (VStr "hi")]
       = lastFiveMessages (chatHistor_LLM fresh ++ [user_entry (VStr "hi")])
    /\ earlier `suffix_of` chatHistor_LLM fresh
    /\ length earlier = Nat.min 9 (length (chatHistor_LLM fresh))
    /\ (length (earlier ++ [user_entry (VStr "hi")]) <= 10)%nat.
Proof.
  apply (history_window_ends_with_current fresh (typed "hi") (VStr "hi")).
  reflexivity.
Defined.

(** ** The arrays only grow *)

Section AppendOnly.

Variable a : adapter.

(** One call appends to each array or leaves it alone. *)
Hypothesis call_grows :
  forall (c : Chat.call) (st : store),
    currentChatDetail st `prefix_of` currentChatDetail (after a c st)
    /\ chatHistor_LLM st `prefix_of` chatHistor_LLM (after a c st).

Lemma session_prefix (calls : list Chat.call) (st : store) :
  currentChatDetail st `prefix_of` currentChatDetail (session a calls st)
  /\ chatHistor_LLM st `prefix_of` chatHistor_LLM (session a calls st).
Proof.
  revert st. induction calls as [| c calls IH]; intros st.
  - split; reflexivity.
  - destruct (call_grows c st) as [Hd Hh].
    destruct (IH (after a c st)) as [IHd IHh].
    split; etrans; eauto.
Qed.

Lemma session_grows : append_only a.
Proof.
  intros calls st. destruct (session_prefix calls st) as [Hd Hh].
  split; (split; [assumption |]); intros i x Hx;
    eapply prefix_lookup_Some; eauto.
Qed.

End AppendOnly.

Ltac grows_by_cases :=
  simpl; split; first [reflexivity | apply prefix_app_r; reflexivity].

Lemma ChatBot_call_grows (c : Chat.call) (st : store) :
  currentChatDetail st `prefix_of` currentChatDetail (after ChatBot.widget c st)
  /\ chatHistor_LLM st `prefix_of` chatHistor_LLM (after ChatBot.widget c st).
Proof.
  destruct c as [request | response now]; simpl; chat_unfold.
  - destruct (message_text request); grows_by_cases.
  - destruct (get_prop response "text"); simpl; [| grows_by_cases].
    destruct (get_prop response "answer"); grows_by_cases.
Qed.

Lemma ChatBot_v1_call_grows (c : Chat.call) (st : store) :
  currentChatDetail st `prefix_of` currentChatDetail (after ChatBot_v1.widget c st)
  /\ chatHistor_LLM st `prefix_of` chatHistor_LLM (after ChatBot_v1.widget c st).
Proof.
  destruct c as [request | response now]; simpl; chat_unfold.
  - destruct (message_text request); grows_by_cases.
  - destruct (ChatBot_v1.formatResponse response); simpl; [| grows_by_cases].
    destruct (get_prop response "answer"); grows_by_cases.
Qed.

Lemma ChatBot_v1_history_call_grows (c : Chat.call) (st : store) :
  currentChatDetail st `prefix_of` currentChatDetail (after ChatBot_v1_history.widget c st)
  /\ chatHistor_LLM st `prefix_of` chatHistor_LLM (after ChatBot_v1_history.widget c st).
Proof.
  destruct c as [request | response now]; simpl; chat_unfold.
  - destruct (message_text request); grows_by_cases.
  - destruct (get_prop response "text"); simpl; [| grows_by_cases].
    destruct (get_prop response "answer"); grows_by_cases.
Qed.

(** C8. In each of the three chat components, whatever requests and
    responses the interceptors are called with during a page session, and
    whether a call returns or throws, the transcript array
    [currentChatDetail] and the role/content array [chatHistor_LLM] as they
    were before the calls are a prefix of what they are after them: every
    entry stays at its index, unchanged, and the arrays only gain entries at
    the end. *)
Theorem transcript_arrays_append_only :
  append_only ChatBot.widget
  /\ append_only ChatBot_v1.widget
  /\ append_only ChatBot_v1_history.widget.
Proof.
  split; [| split]; apply session_grows.
  - apply ChatBot_call_grows.
  - apply ChatBot_v1_call_grows.
  - apply ChatBot_v1_history_call_grows.
Qed.

(** A session of one exchange, and one in which the response makes the
    interceptor throw: the transcript keeps what it had. *)
Example one_exchange :
  currentChatDetail
    (session ChatBot.widget
       [Outgoing (typed "hi");
        Incoming (VObj [("text", VStr "hello"); ("answer", VStr "hello")])
                 "Mon Nov 02 2026"]
       fresh)
  = [user_turn (VStr "hi"); VObj [("role", VStr "ai"); ("html", VStr "hello")]]
  /\ chatHistor_LLM
       (session ChatBot.widget [Outgoing (typed "hi"); Incoming VNull "Mon Nov 02 2026"]
          fresh)
     = [user_entry (VStr "hi")].
Proof. split; reflexivity. Qed.

(** ** [formatResponse] *)

Lemma formatResponse_falsy (response result : value) :
  get_prop response "result" = inl result ->
  to_boolean result = false ->
  ChatBot_v1.formatResponse response = inl ChatBot_v1.no_result.
Proof.
  intros Hget Hfalsy. unfold ChatBot_v1.formatResponse.
  rewrite Hget, Hfalsy. reflexivity.
Qed.

Lemma formatResponse_truthy (response result : value) :
  get_prop response "result" = inl result ->
  to_boolean result = true ->
  exists reportSections : value,
    get_prop result "raw" = inl reportSections
    /\ ChatBot_v1.formatResponse response
       = inl (nl +:+ spaces 12 +:+ "<div>" +:+ to_string reportSections
                 +:+ "</div>" +:+ nl +:+ spaces 8).
Proof.
  intros Hget Htruthy. unfold ChatBot_v1.formatResponse.
  rewrite Hget, Htruthy. simpl negb. cbv iota.
  destruct result; try discriminate Htruthy; simpl get_prop; eexists; split; reflexivity.
Qed.

Lemma responseInterceptor_renders (response : value) (html : string) (now : string)
      (st : store) :
  ChatBot_v1.formatResponse response = inl html ->
  fst (ChatBot_v1.responseInterceptor response now st) = inl (VObj [("html", VStr html)])
  /\ currentChatDetail (snd (ChatBot_v1.responseInterceptor response now st))
     = currentChatDetail st ++ [VObj [("role", VStr "ai"); ("html", VStr html)]].
Proof.
  intros Hfmt.
  assert (Hanswer : exists answer, get_prop response "answer" = inl answer).
  { unfold ChatBot_v1.formatResponse in Hfmt.
    destruct response; simpl in Hfmt; try discriminate Hfmt; simpl; eauto. }
  destruct Hanswer as [answer Hanswer].
  chat_unfold. rewrite Hfmt. simpl. rewrite Hanswer. simpl. split; reflexivity.
Qed.

(** C2. When the response object has no [result] field, [formatResponse]
    returns the literal fallback, and the response interceptor hands it to
    the widget as the [html] to render (and records it in the
    transcript). *)
Theorem missing_result_renders_fallback
    (fields : list (string * value)) (now : string) (st : store) :
  lookup_field "result" fields = None ->
  ChatBot_v1.formatResponse (VObj fields) = inl "No result received from the server."
  /\ fst (ChatBot_v1.responseInterceptor (VObj fields) now st)
     = inl (VObj [("html", VStr "No result received from the server.")])
  /\ currentChatDetail (snd (ChatBot_v1.responseInterceptor (VObj fields) now st))
     = currentChatDetail st
         ++ [VObj [("role", VStr "ai");
                   ("html", VStr "No result received from the server.")]].
Proof.
  intros Hmissing.
  assert (Hfmt : ChatBot_v1.formatResponse (VObj fields) = inl ChatBot_v1.no_result).
  { apply (formatResponse_falsy _ VUndefined); [| reflexivity].
    simpl. rewrite Hmissing. reflexivity. }
  split; [exact Hfmt |].
  apply (responseInterceptor_renders _ _ now st Hfmt).
Qed.

Lemma missing_result_renders_fallback_witness :
  ChatBot_v1.formatResponse (VObj [("answer", VStr "42")])
  = inl "No result received from the server."
  /\ fst (ChatBot_v1.responseInterceptor (VObj [("answer", VStr "42")]) "Mon Nov 02 2026" fresh)
     = inl (VObj [("html", VStr "No result received from the server.")])
  /\ currentChatDetail
       (snd (ChatBot_v1.responseInterceptor (VObj [("answer", VStr "42")])
               "Mon Nov 02 2026" fresh))
     = currentChatDetail fresh
         ++ [VObj [("role", VStr "ai");
                   ("html", VStr "No result received from the server.")]].
Proof.
  apply (missing_result_renders_fallback [("answer", VStr "42")] "Mon Nov 02 2026" fresh).
  reflexivity.
Defined.

(** C9. The guard of [formatResponse] is [!response.result]: a [result]
    that is present but is [null], [false], [0] or the empty string gives
    the fallback too.  More precisely, for a response object the fallback is
    returned exactly when the value read from [result] ([undefined] when the
    field is absent) is falsy. *)
Theorem falsy_result_renders_fallback
    (fields : list (string * value)) (result : value) :
  lookup_field "result" fields = Some result ->
  (List.In result [VNull; VBool false; VNum 0; VStr ""] ->
   ChatBot_v1.formatResponse (VObj fields) = inl "No result received from the server.")
  /\ (ChatBot_v1.formatResponse (VObj fields) = inl "No result received from the server."
      <-> to_boolean result = false).
Proof.
  intros Hpresent.
  assert (Hget : get_prop (VObj fields) "result" = inl result).
  { simpl. rewrite Hpresent. reflexivity. }
  split.
  - intros Hin. apply (formatResponse_falsy _ result Hget).
    simpl in Hin. destruct Hin as [<- | [<- | [<- | [<- | []]]]]; reflexivity.
  - split.
    + intros Hfmt. destruct (to_boolean result) eqn:Htruthy; [| reflexivity].
      destruct (formatResponse_truthy _ _ Hget Htruthy) as (sections & _ & Hdiv).
      rewrite Hdiv in Hfmt. discriminate Hfmt.
    + apply (formatResponse_falsy _ result Hget).
Qed.

Lemma falsy_result_renders_fallback_witness :
  (List.In (VNum 0) [VNull; VBool false; VNum 0; VStr ""] ->
   ChatBot_v1.formatResponse (VObj [("result", VNum 0)])
   = inl "No result received from the server.")
  /\ (ChatBot_v1.formatResponse (VObj [("result", VNum 0)])
      = inl "No result received from the server."
      <-> to_boolean (VNum 0) = false).
Proof.
  apply (falsy_result_renders_fallback [("result", VNum 0)] (VNum 0)).
  reflexivity.
Defined.

(** ** The submit handler *)

Import Form.

Lemma run_Do {A : Type} (net : network) (eff : effect) (k : task A) :
  fst (run net (Do eff k)) = Called eff :: fst (run net k).
Proof. simpl. destruct (run net k). reflexivity. Qed.

Lemma run_Await {A T : Type} (net : network) (p : promise T) (k : T + thrown -> task A) :
  fst (run net (Await p k)) = Awaited p :: fst (run net (k (net T p))).
Proof. simpl. destruct (run net (k (net T p))). reflexivity. Qed.

Lemma loading_apply_effect (eff : effect) (s : State) :
  loading (apply_effect eff s) = match eff with setLoading b => b | _ => loading s end.
Proof. destruct eff; reflexivity. Qed.

(** The handler of [App] sets the flag before its first [await] and clears
    it on each of its ways out. *)
Lemma handleSubmit_tracks (question : string) (flag : bool) :
  tracks flag (handleSubmit question).
Proof.
  unfold handleSubmit, call, await. simpl.
  split; [reflexivity |].
  intros [response | e]; simpl; [| reflexivity].
  destruct (ok response); simpl; [| reflexivity].
  split; [reflexivity |].
  intros [data | e]; simpl; reflexivity.
Qed.

(** Along a whole run of a handler that tracks the flag, the flag is up at
    every [await] and down at the end. *)
Lemma run_tracks (net : network) (t : task unit) :
  forall s : State,
    tracks (loading s) t ->
    loading (state_after (fst (run net t)) s) = false
    /\ (forall (before : list event) (T : Type) (p : promise T) (behind : list event),
           fst (run net t) = before ++ Awaited p :: behind ->
           loading (state_after before s) = true).
Proof.
  induction t as [u | e | eff k IH | T p k IH]; intros s Htracks.
  - simpl in *. split; [exact Htracks |].
    intros [| ? ?] ? ? ? Heq; discriminate Heq.
  - simpl in *. split; [exact Htracks |].
    intros [| ? ?] ? ? ? Heq; discriminate Heq.
  - rewrite run_Do. simpl in Htracks.
    rewrite <- loading_apply_effect in Htracks.
    destruct (IH _ Htracks) as [Hend Hmid].
    split; [exact Hend |].
    intros [| first before] T p behind Heq; [discriminate Heq |].
    injection Heq as <- Heq. simpl. eapply Hmid, Heq.
  - rewrite run_Await. destruct Htracks as [Hup Hnext].
    specialize (Hnext (net T p)). rewrite <- Hup in Hnext.
    destruct (IH _ s Hnext) as [Hend Hmid].
    split; [exact Hend |].
    intros [| first before] T' p' behind Heq; [exact Hup |].
    injection Heq as <- Heq. simpl. eapply Hmid, Heq.
Qed.

(** Up to the next [await]: the flag is up if the handler waits, down if it
    has ended, and a waiting handler goes on tracking it. *)
Lemma advance_tracks (t : task unit) :
  forall s : State,
    tracks (loading s) t ->
    match advance t s with
    | (s', Some t') => loading s' = true /\ tracks true t'
    | (s', None) => loading s' = false
    end.
Proof.
  induction t as [u | e | eff k IH | T p k IH]; intros s Htracks; simpl in *.
  - exact Htracks.
  - exact Htracks.
  - apply IH. rewrite loading_apply_effect. exact Htracks.
  - destruct Htracks as [Hup Hnext]. split; [exact Hup |]. split; [reflexivity | exact Hnext].
Qed.

(** The invariant of the page: no handler waits and the flag is down, or
    exactly one waits and the flag is up. *)
Lemma reachable_invariant (pg : page) :
  reachable pg ->
  (in_flight pg = [] /\ loading (ui pg) = false)
  \/ (exists t : task unit,
         in_flight pg = [t] /\ loading (ui pg) = true /\ tracks true t).
Proof.
  induction 1 as [| pg pg' Hreach IH Hstep].
  - left. split; reflexivity.
  - destruct Hstep as [pg text
                      | pg s' waiting Henabled Hfilled Hadv
                      | pg T p k settled before later s' waiting Hwaits Hadv]; simpl.
    + exact IH.
    + simpl in Henabled.
      destruct IH as [[Hnone Hdown] | (t & _ & Hup & _)]; [| congruence].
      rewrite Hnone. simpl.
      pose proof (advance_tracks (handleSubmit (question (ui pg))) (ui pg)
                    (handleSubmit_tracks _ _)) as Hinv.
      rewrite Hadv in Hinv. destruct waiting as [t' |]; simpl.
      * right. exists t'. destruct Hinv as [Hup Ht']. auto.
      * left. auto.
    + destruct IH as [[Hnone _] | (t & Hone & Hup & Ht)].
      { rewrite Hnone in Hwaits. destruct before; discriminate Hwaits. }
      rewrite Hone in Hwaits.
      assert (Hshape : before = [] /\ later = [] /\ t = Await p k).
      { destruct before as [| b before]; simpl in Hwaits.
        - injection Hwaits as -> <-. auto.
        - injection Hwaits as _ Hwaits. destruct before; discriminate Hwaits. }
      destruct Hshape as (-> & -> & ->). simpl in Ht. destruct Ht as [_ Hnext].
      specialize (Hnext settled). rewrite <- Hup in Hnext.
      pose proof (advance_tracks _ _ Hnext) as Hinv.
      rewrite Hadv in Hinv. destruct waiting as [t' |]; simpl.
      * right. exists t'. destruct Hinv as [Hup' Ht']. auto.
      * left. auto.
Qed.

(** The events of a submission, for each way the network can answer: the
    three calls before the request, the request, and then the error of a
    rejected request, the error of a status outside 200 to 299, or the wait
    for the parsed body followed by the result or the parsing error; the
    flag is cleared last. *)
Lemma handleSubmit_events (net : network) (question : string) :
  fst (run net (handleSubmit question)) =
    Called preventDefault :: Called (setLoading true) :: Called (setError None)
      :: Awaited (fetch endpoint (posted question))
      :: match net Response (fetch endpoint (posted question)) with
         | inr e => [Called (setError (Some (error_text e))); Called (setLoading false)]
         | inl response =>
             if ok response then
               Awaited (json response)
                 :: match net value (json response) with
                    | inl data =>
                        [Called (setAnalysisResult data); Called (setLoading false)]
                    | inr e =>
                        [Called (setError (Some (error_text e)));
                         Called (setLoading false)]
                    end
             else
               [Called (setError
                          (Some ("Error: " +:+ number_to_string (status response)
                                   +:+ " " +:+ statusText response)));
                Called (setLoading false)]
         end.
Proof.
  unfold handleSubmit, call, await, posted.
  cbn [bind finally try_catch].
  repeat rewrite run_Do. rewrite run_Await.
  destruct (net Response _) as [response | e]; cbn [bind finally try_catch].
  - destruct (ok response); cbn [negb bind finally try_catch].
    + rewrite run_Await.
      destruct (net value _) as [data | e]; cbn [bind finally try_catch];
        repeat rewrite run_Do; reflexivity.
    + repeat rewrite run_Do. reflexivity.
  - repeat rewrite run_Do. reflexivity.
Qed.

Lemma append_assoc (a b c : string) : (a +:+ b) +:+ c = a +:+ b +:+ c.
Proof.
  induction a as [| ch a IH]; [reflexivity |].
  change (String ch ((a +:+ b) +:+ c) = String ch (a +:+ b +:+ c)).
  rewrite IH. reflexivity.
Qed.

Lemma append_empty_r (a : string) : a +:+ "" = a.
Proof.
  induction a as [| ch a IH]; [reflexivity |].
  change (String ch (a +:+ "") = String ch a).
  rewrite IH. reflexivity.
Qed.

Lemma contains_middle (before needle behind : string) :
  contains needle (before +:+ needle +:+ behind).
Proof. exists before, behind. reflexivity. Qed.

Lemma contains_end (before needle : string) : contains needle (before +:+ needle).
Proof. exists before, "". rewrite append_empty_r. reflexivity. Qed.

(** C4. When [fetch] resolves with a response whose status is outside 200
    to 299, the handler sets the error to ["Error: "], the status code in
    decimal, a space and the status text, which is what the error paragraph
    then shows; no result is stored.  For status 500 the string contains
    ["500"]. *)
Theorem http_error_surfaces_status
    (net : network) (question : string) (s0 : State) (response : Response) :
  net Response (fetch endpoint (posted question)) = inl response ->
  ok response = false ->
  let final := state_after (fst (run net (handleSubmit question))) s0 in
  let message :=
    "Error: " +:+ number_to_string (status response) +:+ " " +:+ statusText response in
  error final = Some message
  /\ error_paragraph (App final) = Some message
  /\ analysisResult final = analysisResult s0
  /\ contains (number_to_string (status response)) message
  /\ contains (statusText response) message
  /\ (status response = 500 -> contains "500" message).
Proof.
  intros Hnet Hok final message. subst final.
  rewrite handleSubmit_events, Hnet, Hok.
  split; [reflexivity |]. split; [reflexivity |]. split; [reflexivity |].
  split; [apply contains_middle |].
  split.
  - subst message. rewrite <- (append_assoc _ " "), <- append_assoc.
    apply contains_end.
  - intros H500. subst message. rewrite H500. apply (contains_middle _ "500").
Qed.

Lemma http_error_surfaces_status_witness :
  let response := {| status := 500; statusText := "Internal Server Error" |} in
  let final :=
    state_after (fst (run (answering (inl response) (inr (NonError VNull)))
                          (handleSubmit "hours in May?"))) initial in
  error final = Some "Error: 500 Internal Server Error"
  /\ error_paragraph (App final) = Some "Error: 500 Internal Server Error"
  /\ analysisResult final = VNull
  /\ contains "500" "Error: 500 Internal Server Error"
  /\ contains "Internal Server Error" "Error: 500 Internal Server Error"
  /\ (500 = 500 -> contains "500" "Error: 500 Internal Server Error").
Proof.
  apply (http_error_surfaces_status
           (answering (inl {| status := 500; statusText := "Internal Server Error" |})
                      (inr (NonError VNull)))
           "hours in May?" initial
           {| status := 500; statusText := "Internal Server Error" |}).
  - reflexivity.
  - reflexivity.
Defined.

(** C5. Whatever the network does (the request is rejected, the status is
    an error, the body does not parse, or all goes well), the handler raises
    the loading flag before it first waits, the flag is up at every point
    where the handler waits, and it is down once the handler has run to its
    end.  On the page, where a submission needs the enabled button, the flag
    is up exactly while a handler is waiting for the network. *)
Theorem loading_between_submit_and_settle :
  (forall (question : string) (s : State),
      exists (s' : State) (waiting : task unit),
        advance (handleSubmit question) s = (s', Some waiting)
        /\ loading s' = true)
  /\ (forall (net : network) (question : string) (s : State),
         loading (state_after (fst (run net (handleSubmit question))) s) = false
         /\ (forall (before : list event) (T : Type) (p : promise T)
                    (behind : list event),
                fst (run net (handleSubmit question)) = before ++ Awaited p :: behind ->
                loading (state_after before s) = true))
  /\ (forall pg : page,
         reachable pg -> (loading (ui pg) = true <-> in_flight pg <> [])).
Proof.
  split; [| split].
  - intros question s. eexists. eexists. split; reflexivity.
  - intros net question s. apply run_tracks, handleSubmit_tracks.
  - intros pg Hreach.
    destruct (reachable_invariant pg Hreach) as [[Hnone Hdown] | (t & Hone & Hup & _)].
    + rewrite Hnone, Hdown. split; [discriminate | congruence].
    + rewrite Hone, Hup. split; [discriminate | reflexivity].
Qed.

(** C10. The [disabled] attribute of the submit button is the loading flag
    in every state.  On the page at most one submission is ever in flight:
    while one is, the button is disabled, and no step of the page adds a
    second one. *)
Theorem submit_button_disabled_while_loading :
  (forall s : State, button_disabled (App s) = loading s)
  /\ (forall pg : page,
         reachable pg ->
         (length (in_flight pg) <= 1)%nat
         /\ (in_flight pg <> [] -> button_disabled (App (ui pg)) = true))
  /\ (forall pg pg' : page,
         reachable pg -> in_flight pg <> [] -> step pg pg' ->
         (length (in_flight pg') <= length (in_flight pg))%nat).
Proof.
  assert (Hone : forall pg : page,
             reachable pg ->
             (length (in_flight pg) <= 1)%nat
             /\ (in_flight pg <> [] -> button_disabled (App (ui pg)) = true)).
  { intros pg Hreach.
    destruct (reachable_invariant pg Hreach) as [[Hnone Hdown] | (t & Hone & Hup & _)].
    - rewrite Hnone. simpl. split; [lia | congruence].
    - rewrite Hone. simpl. split; [lia | intros _; exact Hup]. }
  split; [reflexivity |]. split; [exact Hone |].
  intros pg pg' Hreach Hbusy Hstep.
  destruct (Hone pg' (reachable_step pg pg' Hreach Hstep)) as [Hle _].
  destruct (in_flight pg); [congruence | simpl; lia].
Qed.

(** C6. The question reaches the backend in the request body.  The chat
    interceptors replace the widget's body by an object that carries the
    message text under [content] ([ChatBot.tsx], the [/api/chat] variant)
    or under [question] (both components of [ChatBot_v1.tsx]).  The form
    handler issues one request, whatever the network answers: a POST to the
    endpoint whose body is the JSON text of an object with the single field
    [question] holding the text. *)
Theorem question_sent_in_request_body
    (text : string) (request : Request) (st : store) (net : network) :
  message_text request = inl (VStr text) ->
  (exists request' : Request,
      fst (ChatBot.requestInterceptor request st) = inl request'
      /\ get_prop (Chat.body request') "content" = inl (VStr text))
  /\ fst (ChatBot_v1.requestInterceptor request st)
     = inl {| Chat.body := VObj [("question", VStr text)] |}
  /\ fst (ChatBot_v1_history.requestInterceptor request st)
     = inl {| Chat.body := VObj [("question", VStr text)] |}
  /\ requests (fst (run net (handleSubmit text)))
     = [(endpoint,
         {| method := "POST";
            headers := [("Content-Type", "application/json")];
            body := JSON_stringify (VObj [("question", VStr text)]) 0 |})]
  /\ JSON_stringify (VObj [("question", VStr text)]) 0
     = Some ("{" +:+ dquote +:+ "question" +:+ dquote +:+ ":" +:+ quote text +:+ "}").
Proof.
  intros Htext.
  split.
  { eexists. rewrite (ChatBot_request_ok request _ st Htext). split; reflexivity. }
  split; [rewrite (ChatBot_v1_request_ok request _ st Htext); reflexivity |].
  split; [rewrite (ChatBot_v1_history_request_ok request _ st Htext); reflexivity |].
  split; [| reflexivity].
  rewrite handleSubmit_events.
  destruct (net Response _) as [response | e]; [| reflexivity].
  destruct (ok response); [| reflexivity].
  destruct (net value _); reflexivity.
Qed.

Lemma question_sent_in_request_body_witness :
  (exists request' : Request,
      fst (ChatBot.requestInterceptor (typed "hours in May?") fresh) = inl request'
      /\ get_prop (Chat.body request') "content" = inl (VStr "hours in May?"))
  /\ fst (ChatBot_v1.requestInterceptor (typed "hours in May?") fresh)
     = inl {| Chat.body := VObj [("question", VStr "hours in May?")] |}
  /\ fst (ChatBot_v1_history.requestInterceptor (typed "hours in May?") fresh)
     = inl {| Chat.body := VObj [("question", VStr "hours in May?")] |}
  /\ requests (fst (run (answering (inr (TypeError "Failed to fetch")) (inl VNull))
                        (handleSubmit "hours in May?")))
     = [(endpoint,
         {| method := "POST";
            headers := [("Content-Type", "application/json")];
            body := JSON_stringify (VObj [("question", VStr "hours in May?")]) 0 |})]
  /\ JSON_stringify (VObj [("question", VStr "hours in May?")]) 0
     = Some ("{" +:+ dquote +:+ "question" +:+ dquote +:+ ":"
                 +:+ quote "hours in May?" +:+ "}").
Proof.
  apply (question_sent_in_request_body "hours in May?" (typed "hours in May?") fresh
           (answering (inr (TypeError "Failed to fetch")) (inl VNull))).
  reflexivity.
Defined.

(** C3, as the specification words it for the chat variant: the value
    rendered would be the bare fragment.  The template literal of
    [formatResponse] spans three lines, so the string it returns starts
    with a line break and ends with one, each followed by indentation. *)
Lemma div_fragment_is_indented :
  ChatBot_v1.formatResponse (VObj [("result", VObj [("raw", VStr "X")])])
  <> inl "<div>X</div>".
Proof. vm_compute. discriminate. Qed.

(** C3, amended.  For the body [{ "result": { "raw": X } }] of a successful
    response, the form shows under its heading the JSON text of the result
    with an indentation of two: an opening brace, the field [raw] with the
    quoted string on a line of its own, a closing brace.  [formatResponse]
    returns, and the chat interceptor passes on as [html], the fragment
    [<div>X</div>] between a line break with twelve spaces and a line break
    with eight spaces, the layout of the template literal in the source. *)
Theorem raw_result_rendered
    (X : string) (net : network) (question : string) (s0 : State)
    (response : Response) (now : string) (st : store) :
  net Response (fetch endpoint (posted question)) = inl response ->
  ok response = true ->
  net value (json response) = inl (VObj [("result", VObj [("raw", VStr X)])]) ->
  result_section (App (state_after (fst (run net (handleSubmit question))) s0))
  = ResultBlock "Analysis Result" (JSON_stringify (VObj [("raw", VStr X)]) 2)
  /\ JSON_stringify (VObj [("raw", VStr X)]) 2
     = Some ("{" +:+ nl +:+ "  " +:+ dquote +:+ "raw" +:+ dquote +:+ ": "
                 +:+ quote X +:+ nl +:+ "}")
  /\ ChatBot_v1.formatResponse (VObj [("result", VObj [("raw", VStr X)])])
     = inl (nl +:+ "            <div>" +:+ X +:+ "</div>" +:+ nl +:+ "        ")
  /\ fst (ChatBot_v1.responseInterceptor
            (VObj [("result", VObj [("raw", VStr X)])]) now st)
     = inl (VObj [("html",
                   VStr (nl +:+ "            <div>" +:+ X +:+ "</div>"
                            +:+ nl +:+ "        "))]).
Proof.
  intros Hnet Hok Hjson.
  split.
  { rewrite handleSubmit_events, Hnet, Hok, Hjson. reflexivity. }
  split; [reflexivity |].
  assert (Hfmt : ChatBot_v1.formatResponse (VObj [("result", VObj [("raw", VStr X)])])
                 = inl (nl +:+ "            <div>" +:+ X +:+ "</div>"
                           +:+ nl +:+ "        ")) by reflexivity.
  split; [exact Hfmt |].
  apply (responseInterceptor_renders _ _ now st Hfmt).
Qed.

Lemma raw_result_rendered_witness :
  let served := VObj [("result", VObj [("raw", VStr "X")])] in
  let net := answering (inl {| status := 200; statusText := "OK" |}) (inl served) in
  result_section (App (state_after (fst (run net (handleSubmit "hours in May?"))) initial))
  = ResultBlock "Analysis Result" (JSON_stringify (VObj [("raw", VStr "X")]) 2)
  /\ JSON_stringify (VObj [("raw", VStr "X")]) 2
     = Some ("{" +:+ nl +:+ "  " +:+ dquote +:+ "raw" +:+ dquote +:+ ": "
                 +:+ quote "X" +:+ nl +:+ "}")
  /\ ChatBot_v1.formatResponse served
     = inl (nl +:+ "            <div>" +:+ "X" +:+ "</div>" +:+ nl +:+ "        ")
  /\ fst (ChatBot_v1.responseInterceptor served "Mon Nov 02 2026" fresh)
     = inl (VObj [("html",
                   VStr (nl +:+ "            <div>" +:+ "X" +:+ "</div>"
                            +:+ nl +:+ "        "))]).
Proof.
  apply (raw_result_rendered "X"
           (answering (inl {| status := 200; statusText := "OK" |})
                      (inl (VObj [("result", VObj [("raw", VStr "X")])])))
           "hours in May?" initial {| status := 200; statusText := "OK" |}
           "Mon Nov 02 2026" fresh).
  - reflexivity.
  - reflexivity.
  - reflexivity.
Defined.


(** ** Worked examples *)

(** Thirteen entries in the history: the window keeps the last ten. *)
Example window_of_thirteen :
  lastFiveMessages (List.map VNum [1; 2; 3; 4; 5; 6; 7; 8; 9; 10; 11; 12; 13])
  = List.map VNum [4; 5; 6; 7; 8; 9; 10; 11; 12; 13].
Proof. reflexivity. Qed.

(** The second message of a session: the history sent holds the first
    exchange and the message itself. *)
Example second_message_history :
  let st := session ChatBot.widget
              [Outgoing (typed "hi");
               Incoming (VObj [("text", VStr "hello"); ("answer", VStr "hello")])
                        "Mon Nov 02 2026"]
              fresh in
  fst (ChatBot.requestInterceptor (typed "hours?") st)
  = inl {| Chat.body :=
             VObj [("content", VStr "hours?");
                   ("history",
                    VArr [user_entry (VStr "hi");
                          VObj [("role", VStr "assistant"); ("content", VStr "hello")];
                          user_entry (VStr "hours?")])] |}.
Proof. reflexivity. Qed.

(** A request without [messages] makes the interceptor throw before it
    pushes anything. *)
Example malformed_request_throws :
  ChatBot.requestInterceptor {| Chat.body := VObj [] |} fresh
  = (inr (TypeError "Cannot read properties of undefined (reading '0')"), fresh).
Proof. reflexivity. Qed.

(** A rejected [fetch]: the message of the rejection is shown and the flag
    is down. *)
Example network_error_shown :
  let final :=
    state_after (fst (run (answering (inr (TypeError "Failed to fetch")) (inl VNull))
                          (handleSubmit "hours in May?"))) initial in
  error_paragraph (App final) = Some "Failed to fetch"
  /\ button_disabled (App final) = false
  /\ button_label (App final) = "Analyze".
Proof. repeat split; reflexivity. Qed.

(** The page after a submission, before the network has answered: one
    handler in flight, the button disabled. *)
Example page_while_waiting :
  exists pg : page,
    reachable pg
    /\ length (in_flight pg) = 1%nat
    /\ question (ui pg) = "hours in May?"
    /\ button_disabled (App (ui pg)) = true
    /\ button_label (App (ui pg)) = "Analyzing...".
Proof.
  eexists. split.
  - eapply reachable_step.
    + eapply reachable_step; [apply reachable_loaded |].
      apply (step_change loaded "hours in May?").
    + eapply step_submit; [reflexivity | discriminate | reflexivity].
  - repeat split; reflexivity.
Qed.


(** * Further properties of the adapters *)

(** ** When reading the message text throws *)

Lemma get_prop_throws (v : value) (k : string) :
  (exists e : thrown, get_prop v k = inr e) <-> nullish v = true.
Proof.
  destruct v; simpl; split;
    first [ intros [e He]; discriminate He
          | intros H; discriminate H
          | intros _; reflexivity
          | intros _; eexists; reflexivity ].
Qed.

Lemma get_index_throws (v : value) (i : nat) :
  (exists e : thrown, get_index v i = inr e) <-> nullish v = true.
Proof.
  destruct v; simpl; split;
    first [ intros [e He]; discriminate He
          | intros H; discriminate H
          | intros _; reflexivity
          | intros _; eexists; reflexivity ].
Qed.

Lemma message_text_throws (request : Request) :
  (exists e : thrown, message_text request = inr e)
  <-> nullish (Chat.body request) = true
      \/ (exists messages : value,
             get_prop (Chat.body request) "messages" = inl messages
             /\ (nullish messages = true
                 \/ exists first : value,
                      get_index messages 0 = inl first /\ nullish first = true)).
Proof.
  unfold message_text, and_then.
  destruct (get_prop (Chat.body request) "messages") as [messages | e] eqn:Hm.
  - destruct (get_index messages 0) as [first | e] eqn:Hf.
    + rewrite get_prop_throws. split.
      * intros Hnull. right. exists messages. split; [reflexivity |].
        right. exists first. auto.
      * intros [Hbody | (m & Heq & [Hnull | (f & Hf' & Hnull)])].
        -- apply (get_prop_throws _ "messages") in Hbody as [e He]. congruence.
        -- injection Heq as <-.
           apply (get_index_throws _ 0%nat) in Hnull as [e He]. congruence.
        -- injection Heq as <-. congruence.
    + split; [| intros _; eauto].
      intros _. right. exists messages. split; [reflexivity |]. left.
      apply (get_index_throws messages 0%nat). eauto.
  - split; [| intros _; eauto].
    intros _. left. apply (get_prop_throws _ "messages"). eauto.
Qed.

(** X1. Each request interceptor throws exactly when
    [request.body["messages"][0].text] cannot be read: the body, its
    [messages] or the first message is [null] or [undefined] (an empty
    [messages] array included).  A first message without [text] does not
    throw: the text is then [undefined]. *)
Theorem request_interceptors_throw_iff (request : Request) (st : store) :
  let unreadable :=
    nullish (Chat.body request) = true
    \/ (exists messages : value,
           get_prop (Chat.body request) "messages" = inl messages
           /\ (nullish messages = true
               \/ exists first : value,
                    get_index messages 0 = inl first /\ nullish first = true)) in
  ((exists e, fst (ChatBot.requestInterceptor request st) = inr e) <-> unreadable)
  /\ ((exists e, fst (ChatBot_v1.requestInterceptor request st) = inr e) <-> unreadable)
  /\ ((exists e, fst (ChatBot_v1_history.requestInterceptor request st) = inr e)
      <-> unreadable).
Proof.
  intros unreadable. subst unreadable. rewrite <- message_text_throws.
  destruct (message_text request) as [text | e] eqn:Htext.
  - rewrite (ChatBot_request_ok _ _ st Htext), (ChatBot_v1_request_ok _ _ st Htext),
      (ChatBot_v1_history_request_ok _ _ st Htext).
    simpl. repeat split; intros [e He]; discriminate He.
  - rewrite (ChatBot_request_throws _ _ st Htext).
    chat_unfold. rewrite Htext. simpl. repeat split; eauto.
Qed.

(** An empty [messages] array, and a message without [text]. *)
Example no_message_throws :
  fst (ChatBot_v1.requestInterceptor {| Chat.body := VObj [("messages", VArr [])] |} fresh)
  = inr (TypeError "Cannot read properties of undefined (reading 'text')")
  /\ fst (ChatBot_v1.requestInterceptor
            {| Chat.body := VObj [("messages", VArr [VObj [("role", VStr "user")]])] |}
            fresh)
     = inl {| Chat.body := VObj [("question", VUndefined)] |}.
Proof. split; reflexivity. Qed.

(** ** What one call does to the arrays *)

(** Splits an interceptor call into the cases of what it reads: whether the
    message text is readable, and what kind of value the response is. *)
Ltac chat_cases :=
  chat_unfold;
  repeat match goal with
         | |- context [message_text ?r] => destruct (message_text r); simpl
         | |- context [ChatBot_v1.formatResponse (VObj ?f)] =>
             destruct (ChatBot_v1.formatResponse (VObj f)); simpl
         | |- context [ChatBot_v1.formatResponse ?r] =>
             is_var r; destruct r; simpl
         | |- context [ChatBot_v1.formatResponse ?r] =>
             unfold ChatBot_v1.formatResponse; simpl
         | |- context [get_prop ?r "text"] => is_var r; destruct r; simpl
         end.

(** X2. In each of the three components an interceptor call that throws has
    pushed nothing onto the transcript or the role/content history, and a
    call that returns has pushed exactly one entry onto the transcript. *)
Theorem interceptor_calls_all_or_nothing :
  all_or_nothing ChatBot.widget
  /\ all_or_nothing ChatBot_v1.widget
  /\ all_or_nothing ChatBot_v1_history.widget.
Proof.
  unfold all_or_nothing.
  repeat match goal with |- _ /\ _ => split end;
    intros; simpl; chat_cases; eauto.
Qed.

(** ** Invariants of a session *)

Section SessionInvariant.

Variable a : adapter.
Variable P : store -> Prop.

Hypothesis call_keeps : forall (c : Chat.call) (st : store), P st -> P (after a c st).

Lemma session_keeps (calls : list Chat.call) (st : store) :
  P st -> P (session a calls st).
Proof.
  revert st. induction calls as [| c calls IH]; intros st Hst; [exact Hst |].
  simpl. apply IH, call_keeps, Hst.
Qed.

End SessionInvariant.

(** X3. The first component of [ChatBot_v1.tsx] declares [chatHistor_LLM]
    but never writes to it: over any session the array stays as it was. *)
Theorem ChatBot_v1_leaves_history_alone (calls : list Chat.call) (st : store) :
  chatHistor_LLM (session ChatBot_v1.widget calls st) = chatHistor_LLM st.
Proof.
  apply (session_keeps ChatBot_v1.widget
           (fun st' => chatHistor_LLM st' = chatHistor_LLM st)); [| reflexivity].
  intros c st' Hst'. rewrite <- Hst'.
  destruct c as [request | response now]; simpl; chat_cases; reflexivity.
Qed.

(** X4. In [ChatBot.tsx] and in the second component of [ChatBot_v1.tsx]
    the transcript and the role/content history grow in step: over any
    session both gain the same number of entries, so from a fresh page they
    always have the same length. *)
Theorem transcript_and_history_in_step (calls : list Chat.call) (st : store) :
  ((length (currentChatDetail (session ChatBot.widget calls st))
    + length (chatHistor_LLM st)
    = length (chatHistor_LLM (session ChatBot.widget calls st))
      + length (currentChatDetail st))%nat
   /\ (length (currentChatDetail (session ChatBot_v1_history.widget calls st))
       + length (chatHistor_LLM st)
       = length (chatHistor_LLM (session ChatBot_v1_history.widget calls st))
         + length (currentChatDetail st))%nat)
  /\ length (currentChatDetail (session ChatBot.widget calls fresh))
     = length (chatHistor_LLM (session ChatBot.widget calls fresh)).
Proof.
  assert (Hstep :
    (length (currentChatDetail (session ChatBot.widget calls st))
     + length (chatHistor_LLM st)
     = length (chatHistor_LLM (session ChatBot.widget calls st))
       + length (currentChatDetail st))%nat
    /\ (length (currentChatDetail (session ChatBot_v1_history.widget calls st))
        + length (chatHistor_LLM st)
        = length (chatHistor_LLM (session ChatBot_v1_history.widget calls st))
          + length (currentChatDetail st))%nat).
  { split.
    - apply (session_keeps ChatBot.widget
               (fun st' => (length (currentChatDetail st') + length (chatHistor_LLM st)
                            = length (chatHistor_LLM st') + length (currentChatDetail st))%nat));
        [| lia].
      intros c st' Hst'.
      destruct c as [request | response now]; simpl; chat_cases;
        rewrite ?length_app; simpl; lia.
    - apply (session_keeps ChatBot_v1_history.widget
               (fun st' => (length (currentChatDetail st') + length (chatHistor_LLM st)
                            = length (chatHistor_LLM st') + length (currentChatDetail st))%nat));
        [| lia].
      intros c st' Hst'.
      destruct c as [request | response now]; simpl; chat_cases;
        rewrite ?length_app; simpl; lia. }
  split; [exact Hstep |].
  clear Hstep.
  pose proof (session_keeps ChatBot.widget
                (fun st' => length (currentChatDetail st') = length (chatHistor_LLM st'))) as H.
  apply H; [| reflexivity].
  intros c st' Hst'.
  destruct c as [request | response now]; simpl; chat_cases;
    rewrite ?length_app; simpl; lia.
Qed.

Lemma well_formed_push_turn (st : store) (role : string) (rest : list (string * value)) :
  List.In role ["user"; "ai"] ->
  Forall (role_in ["user"; "ai"]) (currentChatDetail st) ->
  Forall (role_in ["user"; "ai"])
         (currentChatDetail st ++ [VObj (("role", VStr role) :: rest)]).
Proof.
  intros Hrole Hst. apply Forall_app. split; [exact Hst |].
  apply Forall_singleton. exists role. split; [reflexivity | exact Hrole].
Qed.

Lemma well_formed_push_entry (st : store) (role : string) (rest : list (string * value)) :
  List.In role ["user"; "assistant"] ->
  Forall (role_in ["user"; "assistant"]) (chatHistor_LLM st) ->
  Forall (role_in ["user"; "assistant"])
         (chatHistor_LLM st ++ [VObj (("role", VStr role) :: rest)]).
Proof.
  intros Hrole Hst. apply Forall_app. split; [exact Hst |].
  apply Forall_singleton. exists role. split; [reflexivity | exact Hrole].
Qed.

Ltac well_formed_by_cases :=
  repeat match goal with
         | |- _ /\ _ => split
         | |- Forall _ (currentChatDetail _ ++ _) =>
             apply well_formed_push_turn; [simpl; tauto |]
         | |- Forall _ (chatHistor_LLM _ ++ _) =>
             apply well_formed_push_entry; [simpl; tauto |]
         end; try assumption.

Lemma call_keeps_well_formed (a : adapter) (c : Chat.call) (st : store) :
  List.In a [ChatBot.widget; ChatBot_v1.widget; ChatBot_v1_history.widget] ->
  well_formed st -> well_formed (after a c st).
Proof.
  intros Ha [Hturns Hentries]. unfold well_formed.
  simpl in Ha. destruct Ha as [<- | [<- | [<- | []]]];
    destruct c as [request | response now]; simpl; chat_cases; well_formed_by_cases.
Qed.

(** X5. Over any session that starts on a fresh page, in each of the three
    components, every transcript entry carries the role [user] or [ai] and
    every entry of the role/content history the role [user] or
    [assistant]. *)
Theorem session_entries_have_roles (calls : list Chat.call) :
  well_formed (session ChatBot.widget calls fresh)
  /\ well_formed (session ChatBot_v1.widget calls fresh)
  /\ well_formed (session ChatBot_v1_history.widget calls fresh).
Proof.
  assert (Hfresh : well_formed fresh) by (split; constructor).
  split; [| split];
    (apply (session_keeps _ well_formed); [| exact Hfresh]);
    intros c st; apply call_keeps_well_formed; simpl; tauto.
Qed.

(** ** A whole exchange *)

(** X6. [ChatBot.tsx]: a request followed by its response appends the user
    turn and the ai turn (the response's [text]) to the transcript and the
    user entry and the assistant entry (the response's [answer]) to the
    role/content history, and leaves in [newRecord] exactly the question,
    the answer and the time of the response, whatever it held before. *)
Theorem ChatBot_exchange
    (request : Request) (question : value) (response text answer : value)
    (now : string) (st : store) :
  message_text request = inl question ->
  get_prop response "text" = inl text ->
  get_prop response "answer" = inl answer ->
  session ChatBot.widget [Outgoing request; Incoming response now] st
  = {| currentChatDetail :=
         currentChatDetail st
           ++ [user_turn question; VObj [("role", VStr "ai"); ("html", text)]];
       chatHistor_LLM :=
         chatHistor_LLM st
           ++ [user_entry question;
               VObj [("role", VStr "assistant"); ("content", answer)]];
       newRecord :=
         [("questions", question); ("Answer", answer); ("dateAndTime", VStr now)] |}.
Proof.
  intros Hq Htext Hanswer. simpl.
  rewrite (ChatBot_request_ok request question st Hq). simpl.
  chat_unfold. rewrite Htext. simpl. rewrite Hanswer. simpl.
  rewrite <- !app_assoc. reflexivity.
Qed.

Lemma ChatBot_exchange_witness :
  session ChatBot.widget
    [Outgoing (typed "hours?");
     Incoming (VObj [("text", VStr "<b>40</b>"); ("answer", VStr "40")]) "Mon Nov 02 2026"]
    fresh
  = {| currentChatDetail :=
         currentChatDetail fresh
           ++ [user_turn (VStr "hours?");
               VObj [("role", VStr "ai"); ("html", VStr "<b>40</b>")]];
       chatHistor_LLM :=
         chatHistor_LLM fresh
           ++ [user_entry (VStr "hours?");
               VObj [("role", VStr "assistant"); ("content", VStr "40")]];
       newRecord :=
         [("questions", VStr "hours?"); ("Answer", VStr "40");
          ("dateAndTime", VStr "Mon Nov 02 2026")] |}.
Proof.
  apply (ChatBot_exchange (typed "hours?") (VStr "hours?")
           (VObj [("text", VStr "<b>40</b>"); ("answer", VStr "40")])
           (VStr "<b>40</b>") (VStr "40") "Mon Nov 02 2026" fresh);
    reflexivity.
Defined.

(** X7. [ChatBot_v1.tsx], first component: a request followed by a response
    that [formatResponse] accepts appends the user turn and an ai turn with
    the formatted html to the transcript, and leaves in [newRecord] exactly
    the question, the response's [answer] and the time of the response. *)
Theorem ChatBot_v1_exchange
    (request : Request) (question : value) (response : value) (html : string)
    (now : string) (st : store) :
  message_text request = inl question ->
  ChatBot_v1.formatResponse response = inl html ->
  exists answer : value,
    get_prop response "answer" = inl answer
    /\ session ChatBot_v1.widget [Outgoing request; Incoming response now] st
       = {| currentChatDetail :=
              currentChatDetail st
                ++ [user_turn question;
                    VObj [("role", VStr "ai"); ("html", VStr html)]];
            chatHistor_LLM := chatHistor_LLM st;
            newRecord :=
              [("questions", question); ("Answer", answer);
               ("dateAndTime", VStr now)] |}.
Proof.
  intros Hq Hfmt.
  assert (Hanswer : exists answer, get_prop response "answer" = inl answer).
  { unfold ChatBot_v1.formatResponse in Hfmt.
    destruct response; simpl in Hfmt; try discriminate Hfmt; simpl; eauto. }
  destruct Hanswer as [answer Hanswer]. exists answer. split; [exact Hanswer |].
  simpl. rewrite (ChatBot_v1_request_ok request question st Hq). simpl.
  chat_unfold. rewrite Hfmt. simpl. rewrite Hanswer. simpl.
  rewrite <- !app_assoc. reflexivity.
Qed.

Lemma ChatBot_v1_exchange_witness :
  exists answer : value,
    get_prop (VObj [("result", VNull)]) "answer" = inl answer
    /\ session ChatBot_v1.widget
         [Outgoing (typed "hours?"); Incoming (VObj [("result", VNull)]) "Mon Nov 02 2026"]
         fresh
       = {| currentChatDetail :=
              currentChatDetail fresh
                ++ [user_turn (VStr "hours?");
                    VObj [("role", VStr "ai");
                          ("html", VStr "No result received from the server.")]];
            chatHistor_LLM := chatHistor_LLM fresh;
            newRecord :=
              [("questions", VStr "hours?"); ("Answer", answer);
               ("dateAndTime", VStr "Mon Nov 02 2026")] |}.
Proof.
  apply (ChatBot_v1_exchange (typed "hours?") (VStr "hours?") (VObj [("result", VNull)])
           "No result received from the server." "Mon Nov 02 2026" fresh);
    reflexivity.
Defined.

(** ** Responses the interceptors cannot read *)



(** X9. When [result] is truthy but has no [raw] to read (a plain string,
    a number, [true], an array, or an object without that field),
    [formatResponse] interpolates [undefined]: the html is the fragment
    [<div>undefined</div>] in the layout of the template literal. *)
Theorem result_without_raw_renders_undefined (response result : value) :
  get_prop response "result" = inl result ->
  to_boolean result = true ->
  get_prop result "raw" = inl VUndefined ->
  ChatBot_v1.formatResponse response
  = inl (nl +:+ "            <div>undefined</div>" +:+ nl +:+ "        ").
Proof.
  intros Hresult Htruthy Hraw. unfold ChatBot_v1.formatResponse.
  rewrite Hresult, Htruthy. simpl. rewrite Hraw. reflexivity.
Qed.

Lemma result_without_raw_renders_undefined_witness :
  ChatBot_v1.formatResponse (VObj [("result", VStr "40 hours")])
  = inl (nl +:+ "            <div>undefined</div>" +:+ nl +:+ "        ").
Proof.
  apply (result_without_raw_renders_undefined
           (VObj [("result", VStr "40 hours")]) (VStr "40 hours"));
    reflexivity.
Defined.

(** ** [newRecord] *)






(** * Further properties of the form *)

(** X11. A submission ends in one of two ways, and in both the input keeps
    its text and the loading flag is down.  Either the request was answered
    with a status from 200 to 299 and a body that parsed: then no error is
    set and the parsed body is the result.  Or an error message is set and
    the result is the one that was there before the submission, which
    stays on the screen next to the error. *)
Theorem submission_outcome (net : network) (text : string) (s0 : State) :
  let final := state_after (fst (run net (handleSubmit text))) s0 in
  question final = question s0
  /\ loading final = false
  /\ ((exists (response : Response) (data : value),
          net Response (fetch endpoint (posted text)) = inl response
          /\ ok response = true
          /\ net value (json response) = inl data
          /\ error final = None
          /\ analysisResult final = data)
      \/ (exists message : string,
             error final = Some message
             /\ analysisResult final = analysisResult s0
             /\ result_section (App final) = result_section (App s0))).
Proof.
  intros final. subst final. rewrite handleSubmit_events.
  destruct (net Response _) as [response | e] eqn:Hfetch.
  - destruct (ok response) eqn:Hok.
    + destruct (net value _) as [data | e] eqn:Hjson.
      * split; [reflexivity |]. split; [reflexivity |].
        left. exists response, data. repeat split; first [assumption | reflexivity].
      * split; [reflexivity |]. split; [reflexivity |].
        right. eexists. repeat split; reflexivity.
    + split; [reflexivity |]. split; [reflexivity |].
      right. eexists. repeat split; reflexivity.
  - split; [reflexivity |]. split; [reflexivity |].
    right. eexists. repeat split; reflexivity.
Qed.

(** X12. When [fetch] rejects, or the body of a 2xx response does not
    parse, the error set is the [message] of what was thrown if that is an
    [Error], and ["Something went wrong"] if it is anything else.  The
    error paragraph shows it unless the message is the empty string, which
    the [error && ...] of [App] treats like no error. *)
Theorem thrown_error_shown
    (net : network) (text : string) (s0 : State) (e : thrown) :
  net Response (fetch endpoint (posted text)) = inr e
  \/ (exists response : Response,
         net Response (fetch endpoint (posted text)) = inl response
         /\ ok response = true
         /\ net value (json response) = inr e) ->
  let final := state_after (fst (run net (handleSubmit text))) s0 in
  error final
  = Some (match e with
          | ErrorObj _ message => message
          | NonError _ => "Something went wrong"
          end)
  /\ error_paragraph (App final)
     = match e with
       | ErrorObj _ "" => None
       | ErrorObj _ message => Some message
       | NonError _ => Some "Something went wrong"
       end.
Proof.
  intros Hthrown final. subst final. rewrite handleSubmit_events.
  destruct Hthrown as [Hfetch | (response & Hfetch & Hok & Hjson)].
  - rewrite Hfetch. split; [reflexivity |].
    destruct e as [name [| c message] | v]; reflexivity.
  - rewrite Hfetch, Hok, Hjson. split; [reflexivity |].
    destruct e as [name [| c message] | v]; reflexivity.
Qed.

Lemma thrown_error_shown_witness :
  let net := answering (inl {| status := 200; statusText := "OK" |})
                       (inr (ErrorObj "SyntaxError" "Unexpected token < in JSON")) in
  let final := state_after (fst (run net (handleSubmit "hours?"))) initial in
  error final = Some "Unexpected token < in JSON"
  /\ error_paragraph (App final) = Some "Unexpected token < in JSON".
Proof.
  apply (thrown_error_shown
           (answering (inl {| status := 200; statusText := "OK" |})
                      (inr (ErrorObj "SyntaxError" "Unexpected token < in JSON")))
           "hours?" initial (ErrorObj "SyntaxError" "Unexpected token < in JSON")).
  right. exists {| status := 200; statusText := "OK" |}.
  repeat split; reflexivity.
Defined.

(** X13. [response.json()] is awaited at most once in a submission, and
    only on a response with a status from 200 to 299: the body of an error
    response, and of course of a rejected request, is never read. *)
Theorem body_parsed_only_when_ok (net : network) (text : string) :
  parses (fst (run net (handleSubmit text)))
  = match net Response (fetch endpoint (posted text)) with
    | inl response => if ok response then [response] else []
    | inr _ => []
    end.
Proof.
  rewrite handleSubmit_events.
  destruct (net Response _) as [response | e]; [| reflexivity].
  destruct (ok response); [| reflexivity].
  destruct (net value _); reflexivity.
Qed.

(** ** No error on the screen while a submission waits *)

Lemma handleSubmit_quiet (text : string) (shown : bool) :
  quiet shown (handleSubmit text).
Proof.
  unfold handleSubmit, call, await. simpl.
  split; [reflexivity |].
  intros [response | e]; simpl; [| exact I].
  destruct (ok response); simpl; [| exact I].
  split; [reflexivity |].
  intros [data | e]; simpl; exact I.
Qed.

Lemma advance_quiet (t : task unit) :
  forall s : State,
    quiet (match error s with Some _ => true | None => false end) t ->
    match advance t s with
    | (s', Some t') => error s' = None /\ quiet false t'
    | (_, None) => True
    end.
Proof.
  induction t as [u | e | eff k IH | T p k IH]; intros s Hquiet; simpl in *.
  - exact I.
  - exact I.
  - apply IH. destruct eff as [| text | data | flag | [message |]]; exact Hquiet.
  - destruct Hquiet as [Hshown Hnext]. split.
    + destruct (error s); [discriminate Hshown | reflexivity].
    + split; [reflexivity | exact Hnext].
Qed.

Lemma singleton_split {A : Type} (before later : list A) (x t : A) :
  [t] = before ++ x :: later -> before = [] /\ later = [] /\ t = x.
Proof.
  destruct before as [| b before]; simpl; intros Heq.
  - injection Heq as -> <-. auto.
  - injection Heq as _ Heq. destruct before; discriminate Heq.
Qed.

Lemma reachable_quiet (pg : page) :
  reachable pg ->
  forall t : task unit, in_flight pg = [t] -> error (ui pg) = None /\ quiet false t.
Proof.
  induction 1 as [| pg pg' Hreach IH Hstep].
  - intros t Ht. discriminate Ht.
  - pose proof (reachable_invariant pg Hreach) as Hinv.
    destruct Hstep as [pg text
                      | pg s' waiting Henabled Hfilled Hadv
                      | pg T p k settled before later s' waiting Hwaits Hadv]; simpl.
    + exact IH.
    + simpl in Henabled.
      destruct Hinv as [[Hnone _] | (t0 & _ & Hup & _)]; [| congruence].
      rewrite Hnone. simpl. intros t Ht.
      pose proof (advance_quiet (handleSubmit (question (ui pg))) (ui pg)
                    (handleSubmit_quiet _ _)) as Hq.
      rewrite Hadv in Hq. destruct waiting as [t' |]; [| discriminate Ht].
      injection Ht as <-. exact Hq.
    + destruct Hinv as [[Hnone _] | (t0 & Hone & _ & _)].
      { rewrite Hnone in Hwaits. destruct before; discriminate Hwaits. }
      rewrite Hone in Hwaits.
      destruct (singleton_split _ _ _ _ Hwaits) as (-> & -> & ->).
      destruct (IH _ Hone) as [Herr [_ Hnext]].
      specialize (Hnext settled).
      pose proof (advance_quiet (k settled) (ui pg)) as Hq.
      rewrite Herr in Hq. specialize (Hq Hnext). rewrite Hadv in Hq.
      simpl. intros t Ht. destruct waiting as [t' |]; [| discriminate Ht].
      injection Ht as <-. exact Hq.
Qed.

Lemma submitted_reachable (text : string) : text <> "" -> reachable (submitted text).
Proof.
  intros Hfilled.
  pose (typed_in := {| ui := apply_effect (setQuestion text) (ui loaded);
                       in_flight := in_flight loaded |}).
  apply (reachable_step typed_in).
  - apply (reachable_step loaded); [apply reachable_loaded |].
    apply (step_change loaded text).
  - exact (step_submit typed_in
             (fst (advance (handleSubmit text) (ui typed_in)))
             (snd (advance (handleSubmit text) (ui typed_in)))
             eq_refl Hfilled eq_refl).
Qed.

(** X14. On the page, while a submission is in flight no error is set, so
    no error paragraph is shown, and the button reads [Analyzing...]: the
    error of an earlier submission is gone from the moment the next one
    starts. *)
Theorem no_error_while_in_flight (pg : page) :
  reachable pg ->
  in_flight pg <> [] ->
  error (ui pg) = None
  /\ error_paragraph (App (ui pg)) = None
  /\ button_label (App (ui pg)) = "Analyzing...".
Proof.
  intros Hreach Hbusy.
  destruct (reachable_invariant pg Hreach) as [[Hnone _] | (t & Hone & Hup & _)];
    [congruence |].
  destruct (reachable_quiet pg Hreach t Hone) as [Herr _].
  simpl. rewrite Herr, Hup. repeat split; reflexivity.
Qed.

Lemma no_error_while_in_flight_witness :
  error (ui (submitted "hours in May?")) = None
  /\ error_paragraph (App (ui (submitted "hours in May?"))) = None
  /\ button_label (App (ui (submitted "hours in May?"))) = "Analyzing...".
Proof.
  apply (no_error_while_in_flight (submitted "hours in May?")).
  - apply submitted_reachable. discriminate.
  - discriminate.
Defined.

(** ** The request body determines the question *)

(** The escape of a code unit, whatever follows it, reads back as that code
    unit and what follows. *)
Lemma read_char_quote_char (c : ascii) (rest : string) :
  read_char (quote_char c +:+ rest) = Some (c, rest).
Proof.
  destruct c as [[] [] [] [] [] [] [] []]; reflexivity.
Qed.

Lemma append_cancel_l (prefix a b : string) :
  prefix +:+ a = prefix +:+ b -> a = b.
Proof.
  induction prefix as [| c prefix IH]; intros Heq; [exact Heq |].
  apply IH. change (String c (prefix +:+ a) = String c (prefix +:+ b)) in Heq.
  injection Heq as Heq. exact Heq.
Qed.

Lemma quote_body_cons (c : ascii) (s rest : string) :
  quote_body (String c s) +:+ rest = quote_char c +:+ quote_body s +:+ rest.
Proof. simpl. apply append_assoc. Qed.

Lemma quote_body_determines (s1 : string) :
  forall (s2 rest1 rest2 : string),
    quote_body s1 +:+ dquote +:+ rest1 = quote_body s2 +:+ dquote +:+ rest2 ->
    s1 = s2.
Proof.
  induction s1 as [| c1 s1 IH]; intros [| c2 s2] rest1 rest2 Heq.
  - reflexivity.
  - rewrite quote_body_cons in Heq. apply (f_equal read_char) in Heq.
    rewrite read_char_quote_char in Heq. discriminate Heq.
  - rewrite quote_body_cons in Heq. apply (f_equal read_char) in Heq.
    rewrite read_char_quote_char in Heq. discriminate Heq.
  - rewrite !quote_body_cons in Heq. apply (f_equal read_char) in Heq.
    rewrite !read_char_quote_char in Heq. injection Heq as -> Heq.
    f_equal. eapply IH, Heq.
Qed.

(** X15. The body that [handleSubmit] posts determines the question: two
    questions with the same body [JSON.stringify({ question })] are the
    same text, so quotes, backslashes and control characters in the
    question are escaped without loss. *)
Theorem body_determines_question (text1 text2 : string) :
  body (posted text1) = body (posted text2) -> text1 = text2.
Proof.
  intros Heq.
  pose (prefix := "{" +:+ dquote +:+ "question" +:+ dquote +:+ ":" +:+ dquote).
  change (Some (prefix +:+ (quote_body text1 +:+ dquote) +:+ "}")
          = Some (prefix +:+ (quote_body text2 +:+ dquote) +:+ "}")) in Heq.
  injection Heq as Heq. apply append_cancel_l in Heq.
  rewrite !append_assoc in Heq.
  eapply quote_body_determines, Heq.
Qed.

Lemma body_determines_question_witness :
  "hours in May?" = "hours in May?".
Proof.
  apply (body_determines_question "hours in May?" "hours in May?").
  reflexivity.
Defined.

(** A question with a quote, a backslash and a line break, as posted. *)
Example escaped_question_body :
  body (posted (dquote +:+ "a\b" +:+ nl))
  = Some ("{" +:+ dquote +:+ "question" +:+ dquote +:+ ":" +:+ dquote
              +:+ "\" +:+ dquote +:+ "a\\b\n" +:+ dquote +:+ "}").
Proof. reflexivity. Qed.

(** ** A response without [text] *)

(** X16. [ChatBot.tsx] and the second component of [ChatBot_v1.tsx] have no
    fallback for a response object without [text]: the interceptor returns
    [{ html: undefined }] and records an ai turn whose [html] is
    [undefined], while the role/content history still gets the response's
    [answer]. *)
Theorem missing_text_gives_undefined_html
    (fields : list (string * value)) (now : string) (st : store) :
  lookup_field "text" fields = None ->
  forall out : (value + thrown) * store,
    List.In out [ChatBot.responseInterceptor (VObj fields) now st;
                 ChatBot_v1_history.responseInterceptor (VObj fields) now st] ->
    fst out = inl (VObj [("html", VUndefined)])
    /\ currentChatDetail (snd out)
       = currentChatDetail st ++ [VObj [("role", VStr "ai"); ("html", VUndefined)]]
    /\ exists answer : value,
         get_prop (VObj fields) "answer" = inl answer
         /\ chatHistor_LLM (snd out)
            = chatHistor_LLM st
                ++ [VObj [("role", VStr "assistant"); ("content", answer)]].
Proof.
  intros Hmissing out Hout.
  simpl in Hout. destruct Hout as [<- | [<- | []]];
    chat_unfold; simpl; rewrite Hmissing; simpl;
    (split; [reflexivity |]); (split; [reflexivity |]);
    eexists; split; reflexivity.
Qed.

Lemma missing_text_gives_undefined_html_witness :
  let out := ChatBot.responseInterceptor (VObj [("answer", VStr "40")])
               "Mon Nov 02 2026" fresh in
  fst out = inl (VObj [("html", VUndefined)])
  /\ currentChatDetail (snd out)
     = currentChatDetail fresh ++ [VObj [("role", VStr "ai"); ("html", VUndefined)]]
  /\ exists answer : value,
       get_prop (VObj [("answer", VStr "40")]) "answer" = inl answer
       /\ chatHistor_LLM (snd out)
          = chatHistor_LLM fresh
              ++ [VObj [("role", VStr "assistant"); ("content", answer)]].
Proof.
  apply (missing_text_gives_undefined_html [("answer", VStr "40")]
           "Mon Nov 02 2026" fresh).
  - reflexivity.
  - simpl. left. reflexivity.
Defined.
